(** * GO-term browser: the client-side data-access layer

    A shallow embedding of the two JavaScript variants of the browser's data
    layer: the simple one ([src/ddb.js], module [Ddb] below) and the richer one
    with expiring caches, request deduplication, hover prefetch, a bounded
    strain renderer and a periodic sweep (top level of this file).

    Modelling conventions.
    - [Date.now()] is passed to every operation as [now : Z] (milliseconds).
    - The three [Map] caches and [pendingRequests] are [gmap string _];
      [prefetchQueue] is a [gset string].
    - Promises created by the fetchers live in a heap ([promises]); a handle is
      the index of the promise.  The browser settles a request through one of
      the [settle_*] operations, which run the [.then]/[.catch] handlers the
      source attaches to [fetch(...)].
    - An id is a [string] of octets: the UTF-8 form of a JavaScript string
      that [encodeURIComponent] accepts, that is, one without a lone
      surrogate ([utf8]).  [fetchTerm_call] and [fetchChildren_call] take any
      JavaScript string, also one on which [encodeURIComponent] throws.
    - [fetch(url)] is recorded in [remoteCalls] as a [request]: the path
      template of the call site and the id it was called with.  The string
      handed to [fetch] is [urlString]; requests of two templates can have
      the same URL string.
    - Payloads are typed after the remote API: a term is arbitrary JSON (its
      truthiness is tested by the code), children are lists of edges and
      strains are lists of strain records. *)

From Stdlib Require Import ZArith Ascii.
From stdpp Require Import gmap strings list fin_maps pretty.

Open Scope string_scope.
Open Scope Z_scope.
Open Scope list_scope.

(** ** Values exchanged with the remote API *)

#[local] Unset Elimination Schemes.
Inductive json :=
| JNull
| JBool (b : bool)
| JNum (n : Z)
| JStr (s : string)
| JArr (l : list json)
| JObj (fields : list (string * json)).
#[local] Set Elimination Schemes.

(** JavaScript truthiness of a parsed JSON value, as tested by [if (data)]. *)
Definition truthy (j : json) : bool :=
  match j with
  | JNull => false
  | JBool b => b
  | JNum n => negb (n =? 0)%Z
  | JStr s => negb (String.eqb s "")
  | JArr _ | JObj _ => true
  end.

Record edge := { child_go_id : string }.
Record strain := { mmrrc_id : string }.
Record term := { go_id : string; name : string }.

#[global] Instance edge_eq_dec : EqDecision edge.
Proof. solve_decision. Defined.
#[global] Instance strain_eq_dec : EqDecision strain.
Proof. solve_decision. Defined.

Definition error := string.

(** What the browser delivers for one [fetch(url)]: either the call itself
    rejects, or it resolves to a response with its [ok] flag; [body] is what
    [res.json()] yields when the code calls it (a rejection or the parsed
    value). *)
Inductive reply (A : Type) :=
| NetworkError (e : error)
| Response (ok : bool) (body : error + A).
Arguments NetworkError {A} e.
Arguments Response {A} ok body.

(** What a fetcher asks for: the path template of its [fetch] and the id it
    was called with. *)
Inductive request :=
| GetTerm (id : string)        (* `${apiUrl}/go/${encodeURIComponent(id)}` *)
| GetChildren (id : string)    (* `${apiUrl}/go/children/${encodeURIComponent(id)}` *)
| GetStrains (id : string).    (* `${apiUrl}/go/${encodeURIComponent(id)}/mmrrc-strains` *)

#[global] Instance request_eq_dec : EqDecision request.
Proof. solve_decision. Defined.

(** [res.ok ? res.json() : fallback], after [fetch] itself: the value the
    next [.then] handler receives, or the rejection that skips it. *)
Definition ok_json_or {A} (fallback : A) (r : reply A) : error + A :=
  match r with
  | NetworkError e => inl e
  | Response true body => body
  | Response false _ => inr fallback
  end.

(** ** The simple variant, [src/ddb.js] *)

Module Ddb.

Record state := {
  termCache : gmap string json;
  childrenCache : gmap string (list edge);
  strainsCache : gmap string (list strain)
}.

Definition init_state : state :=
  {| termCache := ∅; childrenCache := ∅; strainsCache := ∅ |}.

(** An [async] call either returns at once from the cache or suspends on
    [await fetch(...)]. *)
Inductive started (A : Type) :=
| Hit (v : A)
| Suspended (rq : request).
Arguments Hit {A} v.
Arguments Suspended {A} rq.

Definition fetchTerm_start (id : string) (s : state) : started json :=
  match termCache s !! id with
  | Some v => Hit v
  | None => Suspended (GetTerm id)
  end.

(** The rest of [fetchTerm] once the browser has answered.  The result is
    [inl e] when the returned promise rejects (nothing in the function
    catches) and [inr data] when it fulfils. *)
Definition fetchTerm_resume (id : string) (r : reply json) (s : state)
  : (error + json) * state :=
  match ok_json_or JNull r with
  | inl e => (inl e, s)
  | inr data =>
      let s' := if truthy data
                then {| termCache := <[id := data]> (termCache s);
                        childrenCache := childrenCache s;
                        strainsCache := strainsCache s |}
                else s in
      (inr data, s')
  end.

Definition fetchTerm (id : string) (r : reply json) (s : state)
  : (error + json) * state :=
  match fetchTerm_start id s with
  | Hit v => (inr v, s)
  | Suspended _ => fetchTerm_resume id r s
  end.

Definition fetchChildren_start (id : string) (s : state) : started (list edge) :=
  match childrenCache s !! id with
  | Some v => Hit v
  | None => Suspended (GetChildren id)
  end.

Definition fetchChildren_resume (id : string) (r : reply (list edge)) (s : state)
  : (error + list edge) * state :=
  match ok_json_or [] r with
  | inl e => (inl e, s)
  | inr data =>
      (inr data, {| termCache := termCache s;
                    childrenCache := <[id := data]> (childrenCache s);
                    strainsCache := strainsCache s |})
  end.

Definition fetchChildren (id : string) (r : reply (list edge)) (s : state)
  : (error + list edge) * state :=
  match fetchChildren_start id s with
  | Hit v => (inr v, s)
  | Suspended _ => fetchChildren_resume id r s
  end.

End Ddb.

(** ** The richer variant *)

(** *** Shared state *)

Record entry (A : Type) := { data : A; timestamp : Z }.
Arguments data {A} e.
Arguments timestamp {A} e.

(** Cache expiry (30 minutes) and the period of the sweep (5 minutes). *)
Definition CACHE_EXPIRY : Z := 30 * 60 * 1000.
Definition SWEEP_INTERVAL : Z := 5 * 60 * 1000.

(** Which handler chain a promise stored in [pendingRequests] carries: the
    one built by [fetchTerm], [fetchChildren], [prefetchStrains] or
    [showStrains]. *)
Inductive chain :=
| TermChain (id : string)
| ChildrenChain (id : string)
| PrefetchChain (goId : string)
| ShowChain (goId : string).

Definition requestKey (c : chain) : string :=
  match c with
  | TermChain id => "term-" +:+ id
  | ChildrenChain id => "children-" +:+ id
  | PrefetchChain goId => "strains-" +:+ goId
  | ShowChain goId => "strains-" +:+ goId
  end.

(** The request of a chain: its path template and its id. *)
Definition url (c : chain) : request :=
  match c with
  | TermChain id => GetTerm id
  | ChildrenChain id => GetChildren id
  | PrefetchChain goId => GetStrains goId
  | ShowChain goId => GetStrains goId
  end.

(** *** [encodeURIComponent] and the URLs *)

(** A JavaScript string is a sequence of UTF-16 code units.
    [encodeURIComponent] writes the code points of its argument in UTF-8 and
    escapes every octet but those of the unreserved characters; it throws a
    [URIError] when the argument has a surrogate that is not part of a
    pair. *)
Definition js_string := list N.

Definition high_surrogate (u : N) : bool := (0xD800 <=? u)%N && (u <=? 0xDBFF)%N.
Definition low_surrogate (u : N) : bool := (0xDC00 <=? u)%N && (u <=? 0xDFFF)%N.

(** The code points of a string; [None] at a lone surrogate. *)
Fixpoint code_points (units : js_string) : option (list N) :=
  match units with
  | [] => Some []
  | u :: rest =>
      if high_surrogate u then
        match rest with
        | v :: rest' =>
            if low_surrogate v
            then cons (0x10000 + (u - 0xD800) * 0x400 + (v - 0xDC00))%N
                   <$> code_points rest'
            else None
        | [] => None
        end
      else if low_surrogate u then None
      else cons u <$> code_points rest
  end.

(** The octets of one code point in UTF-8. *)
Definition utf8_octets (cp : N) : list N :=
  (if cp <? 0x80 then [cp]
   else if cp <? 0x800 then [0xC0 + cp / 0x40; 0x80 + cp mod 0x40]
   else if cp <? 0x10000
        then [0xE0 + cp / 0x1000; 0x80 + (cp / 0x40) mod 0x40; 0x80 + cp mod 0x40]
        else [0xF0 + cp / 0x40000; 0x80 + (cp / 0x1000) mod 0x40;
              0x80 + (cp / 0x40) mod 0x40; 0x80 + cp mod 0x40])%N.

Definition utf8 (units : js_string) : option string :=
  (λ cps, String.string_of_list_ascii (map Ascii.ascii_of_N (cps ≫= utf8_octets)))
    <$> code_points units.

(** The characters [encodeURIComponent] leaves as they are. *)
Definition unreserved (a : ascii) : bool :=
  existsb (Ascii.eqb a)
    (String.list_ascii_of_string
       "ABCDEFGHIJKLMNOPQRSTUVWXYZabcdefghijklmnopqrstuvwxyz0123456789-_.!~*'()").

Definition hex_digit (b3 b2 b1 b0 : bool) : ascii :=
  nth (Nat.b2n b3 * 8 + Nat.b2n b2 * 4 + Nat.b2n b1 * 2 + Nat.b2n b0)
    (String.list_ascii_of_string "0123456789ABCDEF") "0"%char.

(** One octet, kept or written as [%XX]. *)
Definition escape_octet (a : ascii) : string :=
  if unreserved a then String a ""
  else let 'Ascii b0 b1 b2 b3 b4 b5 b6 b7 := a in
       String "%" (String (hex_digit b7 b6 b5 b4) (String (hex_digit b3 b2 b1 b0) "")).

Fixpoint escape (s : string) : string :=
  match s with
  | "" => ""
  | String a rest => escape_octet a +:+ escape rest
  end.

(** [encodeURIComponent(id)]: [None] when it throws a [URIError]. *)
Definition encodeURIComponent (id : js_string) : option string :=
  escape <$> utf8 id.

Definition apiUrl : string := "http://localhost:3000/api".

(** The string handed to [fetch] by the chain, for an id in UTF-8. *)
Definition urlString (c : chain) : string :=
  match c with
  | TermChain id => apiUrl +:+ "/go/" +:+ escape id
  | ChildrenChain id => apiUrl +:+ "/go/children/" +:+ escape id
  | PrefetchChain goId | ShowChain goId =>
      apiUrl +:+ "/go/" +:+ escape goId +:+ "/mmrrc-strains"
  end.

(** Does [s] hold a slash? *)
Fixpoint has_slash (s : string) : bool :=
  match s with
  | "" => false
  | String a rest => Ascii.eqb a "/" || has_slash rest
  end.

(** The value a chain's promise fulfils with. *)
Inductive value :=
| VUndefined
| VTerm (j : json)
| VEdges (l : list edge)
| VStrains (l : list strain).

Inductive settled :=
| Fulfilled (v : value)
| Rejected (e : error).

(** [p_state = None] while the request is in flight. *)
Record promise := { p_chain : chain; p_state : option settled }.

(** Children of the [strain-list] element. *)
Inductive li :=
| Message (cls text : string)
| StrainLink (href text : string)
| LoadMore (text : string) (strains : list strain).

#[global] Instance li_eq_dec : EqDecision li.
Proof. solve_decision. Defined.

Record state := {
  termCache : gmap string (entry json);
  childrenCache : gmap string (entry (list edge));
  strainsCache : gmap string (entry (list strain));
  pendingRequests : gmap string nat;
  prefetchQueue : gset string;
  promises : list promise;
  remoteCalls : list request;
  console : list (string * error);
  (* [showStrains] calls suspended on [await]: the awaited promise, and
     whether the continuation renders [strains || []] *)
  awaiting : list (nat * bool);
  label : string;
  strainList : list li
}.

Definition init_state : state :=
  {| termCache := ∅; childrenCache := ∅; strainsCache := ∅;
     pendingRequests := ∅; prefetchQueue := ∅; promises := [];
     remoteCalls := []; console := []; awaiting := [];
     label := ""; strainList := [] |}.

Definition set_termCache (f : gmap string (entry json) → gmap string (entry json))
    (s : state) : state :=
  {| termCache := f (termCache s); childrenCache := childrenCache s;
     strainsCache := strainsCache s; pendingRequests := pendingRequests s;
     prefetchQueue := prefetchQueue s; promises := promises s;
     remoteCalls := remoteCalls s; console := console s;
     awaiting := awaiting s; label := label s; strainList := strainList s |}.

Definition set_childrenCache
    (f : gmap string (entry (list edge)) → gmap string (entry (list edge)))
    (s : state) : state :=
  {| termCache := termCache s; childrenCache := f (childrenCache s);
     strainsCache := strainsCache s; pendingRequests := pendingRequests s;
     prefetchQueue := prefetchQueue s; promises := promises s;
     remoteCalls := remoteCalls s; console := console s;
     awaiting := awaiting s; label := label s; strainList := strainList s |}.

Definition set_strainsCache
    (f : gmap string (entry (list strain)) → gmap string (entry (list strain)))
    (s : state) : state :=
  {| termCache := termCache s; childrenCache := childrenCache s;
     strainsCache := f (strainsCache s); pendingRequests := pendingRequests s;
     prefetchQueue := prefetchQueue s; promises := promises s;
     remoteCalls := remoteCalls s; console := console s;
     awaiting := awaiting s; label := label s; strainList := strainList s |}.

Definition set_pendingRequests (f : gmap string nat → gmap string nat)
    (s : state) : state :=
  {| termCache := termCache s; childrenCache := childrenCache s;
     strainsCache := strainsCache s; pendingRequests := f (pendingRequests s);
     prefetchQueue := prefetchQueue s; promises := promises s;
     remoteCalls := remoteCalls s; console := console s;
     awaiting := awaiting s; label := label s; strainList := strainList s |}.

Definition set_prefetchQueue (f : gset string → gset string) (s : state) : state :=
  {| termCache := termCache s; childrenCache := childrenCache s;
     strainsCache := strainsCache s; pendingRequests := pendingRequests s;
     prefetchQueue := f (prefetchQueue s); promises := promises s;
     remoteCalls := remoteCalls s; console := console s;
     awaiting := awaiting s; label := label s; strainList := strainList s |}.

Definition set_promises (f : list promise → list promise) (s : state) : state :=
  {| termCache := termCache s; childrenCache := childrenCache s;
     strainsCache := strainsCache s; pendingRequests := pendingRequests s;
     prefetchQueue := prefetchQueue s; promises := f (promises s);
     remoteCalls := remoteCalls s; console := console s;
     awaiting := awaiting s; label := label s; strainList := strainList s |}.

Definition set_remoteCalls (f : list request → list request) (s : state) : state :=
  {| termCache := termCache s; childrenCache := childrenCache s;
     strainsCache := strainsCache s; pendingRequests := pendingRequests s;
     prefetchQueue := prefetchQueue s; promises := promises s;
     remoteCalls := f (remoteCalls s); console := console s;
     awaiting := awaiting s; label := label s; strainList := strainList s |}.

Definition set_console (f : list (string * error) → list (string * error))
    (s : state) : state :=
  {| termCache := termCache s; childrenCache := childrenCache s;
     strainsCache := strainsCache s; pendingRequests := pendingRequests s;
     prefetchQueue := prefetchQueue s; promises := promises s;
     remoteCalls := remoteCalls s; console := f (console s);
     awaiting := awaiting s; label := label s; strainList := strainList s |}.

Definition set_awaiting (f : list (nat * bool) → list (nat * bool)) (s : state) : state :=
  {| termCache := termCache s; childrenCache := childrenCache s;
     strainsCache := strainsCache s; pendingRequests := pendingRequests s;
     prefetchQueue := prefetchQueue s; promises := promises s;
     remoteCalls := remoteCalls s; console := console s;
     awaiting := f (awaiting s); label := label s; strainList := strainList s |}.

Definition set_label (l : string) (s : state) : state :=
  {| termCache := termCache s; childrenCache := childrenCache s;
     strainsCache := strainsCache s; pendingRequests := pendingRequests s;
     prefetchQueue := prefetchQueue s; promises := promises s;
     remoteCalls := remoteCalls s; console := console s;
     awaiting := awaiting s; label := l; strainList := strainList s |}.

Definition set_strainList (f : list li → list li) (s : state) : state :=
  {| termCache := termCache s; childrenCache := childrenCache s;
     strainsCache := strainsCache s; pendingRequests := pendingRequests s;
     prefetchQueue := prefetchQueue s; promises := promises s;
     remoteCalls := remoteCalls s; console := console s;
     awaiting := awaiting s; label := label s; strainList := f (strainList s) |}.

(** [console.error(msg, error)]. *)
Definition console_error (msg : string) (e : error) : state → state :=
  set_console (λ l, l ++ [(msg, e)]).

(** [const promise = fetch(url).then(...)...; pendingRequests.set(requestKey,
    promise)]: the call is issued, the promise allocated and registered. *)
Definition dispatch (c : chain) (s : state) : nat * state :=
  let p := length (promises s) in
  (p, set_pendingRequests <[requestKey c := p]>
        (set_promises (λ l, l ++ [{| p_chain := c; p_state := None |}])
           (set_remoteCalls (λ l, l ++ [url c]) s))).

(** The promise [p] settles with [r]. *)
Definition resolve (p : nat) (r : settled) : state → state :=
  set_promises (λ l,
    match l !! p with
    | Some pr => <[p := {| p_chain := p_chain pr; p_state := Some r |}]> l
    | None => l
    end).

(** The test [cached && Date.now() - cached.timestamp < CACHE_EXPIRY] on
    [cache.get(id)], yielding [cached.data] when it passes.  A stored entry
    is an object, hence truthy: [cached] is falsy only when there is none. *)
Definition cached_fresh {A} (cache : gmap string (entry A)) (id : string) (now : Z)
  : option A :=
  match cache !! id with
  | Some cached =>
      if bool_decide (now - timestamp cached < CACHE_EXPIRY)
      then Some (data cached) else None
  | None => None
  end.

(** What an [async] fetcher hands back: a value known at once, or the promise
    stored in (or taken from) [pendingRequests]; the promise of the [async]
    wrapper follows the one returned and is not told apart from it. *)
Inductive returned (A : Type) :=
| Immediate (v : A)
| Promised (p : nat).
Arguments Immediate {A} v.
Arguments Promised {A} p.

(** *** [fetchTerm] and [fetchChildren] *)

Definition fetchTerm (now : Z) (id : string) (s : state) : returned json * state :=
  match cached_fresh (termCache s) id now with
  | Some v => (Immediate v, s)
  | None =>
      match pendingRequests s !! requestKey (TermChain id) with
      | Some p => (Promised p, s)
      | None =>
          let '(p, s') := dispatch (TermChain id) s in
          (Promised p, s')
      end
  end.

(** The handlers [fetchTerm] chained on its [fetch], run when the browser
    answers the request of promise [p] with [r] at time [now]. *)
Definition settle_term (now : Z) (p : nat) (r : reply json) (s : state) : state :=
  match promises s !! p with
  | Some {| p_chain := TermChain id; p_state := None |} =>
      match ok_json_or JNull r with
      | inr d =>
          let s1 := if truthy d
                    then set_termCache <[id := {| data := d; timestamp := now |}]> s
                    else s in
          resolve p (Fulfilled (VTerm d))
            (set_pendingRequests (delete (requestKey (TermChain id))) s1)
      | inl e =>
          resolve p (Fulfilled (VTerm JNull))
            (console_error "Error fetching term:" e
               (set_pendingRequests (delete (requestKey (TermChain id))) s))
      end
  | _ => s
  end.

Definition fetchChildren (now : Z) (id : string) (s : state)
  : returned (list edge) * state :=
  match cached_fresh (childrenCache s) id now with
  | Some v => (Immediate v, s)
  | None =>
      match pendingRequests s !! requestKey (ChildrenChain id) with
      | Some p => (Promised p, s)
      | None =>
          let '(p, s') := dispatch (ChildrenChain id) s in
          (Promised p, s')
      end
  end.

Definition settle_children (now : Z) (p : nat) (r : reply (list edge)) (s : state)
  : state :=
  match promises s !! p with
  | Some {| p_chain := ChildrenChain id; p_state := None |} =>
      match ok_json_or [] r with
      | inr d =>
          resolve p (Fulfilled (VEdges d))
            (set_pendingRequests (delete (requestKey (ChildrenChain id)))
               (set_childrenCache <[id := {| data := d; timestamp := now |}]> s))
      | inl e =>
          resolve p (Fulfilled (VEdges []))
            (console_error "Error fetching children:" e
               (set_pendingRequests (delete (requestKey (ChildrenChain id))) s))
      end
  | _ => s
  end.

(** *** The fetchers on an arbitrary JavaScript string *)

(** How the call of an [async] fetcher comes out: with a value or a promise,
    or with the exception thrown in its body, which rejects the promise the
    call returns. *)
Inductive call (A : Type) :=
| Returned (r : returned A)
| Raised (e : error).
Arguments Returned {A} r.
Arguments Raised {A} e.

(** [fetchTerm(id)].  Nothing is ever requested, and so nothing is cached or
    pending, under an id that [encodeURIComponent] rejects: for such an id
    both lookups miss and the template literal of the [fetch] throws, before
    [.catch] is attached and before [pendingRequests.set]. *)
Definition fetchTerm_call (now : Z) (id : js_string) (s : state)
  : call json * state :=
  match utf8 id with
  | Some id8 => let '(r, s') := fetchTerm now id8 s in (Returned r, s')
  | None => (Raised "URIError", s)
  end.

Definition fetchChildren_call (now : Z) (id : js_string) (s : state)
  : call (list edge) * state :=
  match utf8 id with
  | Some id8 => let '(r, s') := fetchChildren now id8 s in (Returned r, s')
  | None => (Raised "URIError", s)
  end.

(** *** [renderStrains] *)

Definition INITIAL_RENDER_COUNT : nat := 100.

(** The [<li><a href=... target=_blank>mmrrc_id</a></li>] built for a strain. *)
Definition strain_li (st : strain) : li :=
  StrainLink ("https://www.mmrrc.org/catalog/sds.php?mmrrc_id=" +:+ mmrrc_id st)
             (mmrrc_id st).

Definition loadMoreLi (strains : list strain) : li :=
  LoadMore ("+ " +:+ pretty (length strains - INITIAL_RENDER_COUNT)%nat
                 +:+ " more strains (click to load)")
           strains.

(** The children of [list] once [renderStrains(strains, list)] returns. *)
Definition renderStrains (strains : list strain) : list li :=
  if decide (length strains = 0%nat)
  then [Message "text-gray-500" "No strains linked to this term."]
  else
    map strain_li (take INITIAL_RENDER_COUNT strains)
    ++ (if decide (INITIAL_RENDER_COUNT < length strains)%nat
        then [loadMoreLi strains] else []).

(** [loadMoreLi.onclick]: the control removes itself and the strains from
    index [INITIAL_RENDER_COUNT] on are appended to [list]. *)
Definition loadMore_onclick (this : li) (content : list li) : list li :=
  match this with
  | LoadMore _ strains =>
      filter (λ x, x ≠ this) content
      ++ map strain_li (drop INITIAL_RENDER_COUNT strains)
  | _ => content
  end.

(** *** Hover prefetch *)

Definition prefetchStrains (goId : string) (s : state) : state :=
  match pendingRequests s !! requestKey (PrefetchChain goId) with
  | Some _ => s
  | None => (dispatch (PrefetchChain goId) s).2
  end.

(** The [mouseenter] listener [buildNode] installs for a term. *)
Definition mouseenter (term_go_id : string) (s : state) : state :=
  if bool_decide (strainsCache s !! term_go_id = None)
     && bool_decide (term_go_id ∉ prefetchQueue s)
  then prefetchStrains term_go_id (set_prefetchQueue (λ q, {[term_go_id]} ∪ q) s)
  else s.

(** *** [showStrains] *)

(** The [catch] block of [showStrains]. *)
Definition showStrains_catch (e : error) (s : state) : state :=
  console_error "Error fetching strains:" e
    (set_strainList (λ _, [Message "text-red-500" "Error loading strains."]) s).

(** [showStrains] after its [await]: [or_empty] tells the branch that renders
    [strains || []] (it awaited a promise found in [pendingRequests]) from the
    one that renders [strains].  A promise under a strains key fulfils with a
    strain list ([showStrains]) or with [undefined] ([prefetchStrains]);
    [renderStrains(undefined, list)] throws inside the [try]. *)
Definition showStrains_resume (or_empty : bool) (r : settled) (s : state) : state :=
  match r with
  | Fulfilled (VStrains strains) => set_strainList (λ _, renderStrains strains) s
  | Fulfilled VUndefined =>
      if or_empty then set_strainList (λ _, renderStrains []) s
      else showStrains_catch "TypeError" s
  | Fulfilled _ => showStrains_catch "TypeError" s
  | Rejected e => showStrains_catch e s
  end.

(** [await p]: continue at once on a settled promise, else suspend. *)
Definition await (p : nat) (or_empty : bool) (s : state) : state :=
  match promises s !! p with
  | Some {| p_chain := _; p_state := Some r |} => showStrains_resume or_empty r s
  | _ => set_awaiting (λ l, l ++ [(p, or_empty)]) s
  end.

Definition showStrains (now : Z) (t : term) (s : state) : state :=
  let s := set_label (name t +:+ " (" +:+ go_id t +:+ ")") s in
  match cached_fresh (strainsCache s) (go_id t) now with
  | Some strains => set_strainList (λ _, renderStrains strains) s
  | None =>
      let s := set_strainList (λ _, [Message "text-gray-500" "Loading strains..."]) s in
      match pendingRequests s !! requestKey (ShowChain (go_id t)) with
      | Some p => await p true s
      | None =>
          let '(p, s') := dispatch (ShowChain (go_id t)) s in
          await p false s'
      end
  end.

(** The suspended [showStrains] calls waiting on [p] continue, oldest first. *)
Definition wake (p : nat) (r : settled) (s : state) : state :=
  foldl (λ s' w, if decide (w.1 = p) then showStrains_resume w.2 r s' else s')
        (set_awaiting (filter (λ w, w.1 ≠ p)) s)
        (awaiting s).

(** The handlers chained on the strains request of promise [p], by
    [prefetchStrains] or by [showStrains]. *)
Definition settle_strains (now : Z) (p : nat) (r : reply (list strain)) (s : state)
  : state :=
  match promises s !! p with
  | Some {| p_chain := PrefetchChain goId; p_state := None |} =>
      let s1 :=
        match ok_json_or [] r with
        | inr strains =>
            set_prefetchQueue (λ q, q ∖ {[goId]})
              (set_pendingRequests (delete (requestKey (PrefetchChain goId)))
                 (set_strainsCache <[goId := {| data := strains; timestamp := now |}]> s))
        | inl e =>
            console_error "Error prefetching strains:" e
              (set_prefetchQueue (λ q, q ∖ {[goId]})
                 (set_pendingRequests (delete (requestKey (PrefetchChain goId))) s))
        end in
      wake p (Fulfilled VUndefined) (resolve p (Fulfilled VUndefined) s1)
  | Some {| p_chain := ShowChain goId; p_state := None |} =>
      match ok_json_or [] r with
      | inr strains =>
          wake p (Fulfilled (VStrains strains))
            (resolve p (Fulfilled (VStrains strains))
               (set_pendingRequests (delete (requestKey (ShowChain goId)))
                  (set_strainsCache <[goId := {| data := strains; timestamp := now |}]> s)))
      | inl e => wake p (Rejected e) (resolve p (Rejected e) s)
      end
  | _ => s
  end.

(** *** The periodic sweep *)

(** One [for (const [key, value] of cache.entries())] loop of the sweep. *)
Definition sweep_cache {A} (now : Z) (cache : gmap string (entry A))
  : gmap string (entry A) :=
  map_fold (λ key value acc,
              if bool_decide (now - timestamp value > CACHE_EXPIRY)
              then delete key acc else acc)
           cache cache.

Definition sweep (now : Z) (s : state) : state :=
  set_strainsCache (sweep_cache now)
    (set_childrenCache (sweep_cache now)
       (set_termCache (sweep_cache now) s)).

(** *** Everything that can happen to the shared state *)

Inductive event :=
| CallFetchTerm (now : Z) (id : string)
| CallFetchChildren (now : Z) (id : string)
| Hover (term_go_id : string)
| CallShowStrains (now : Z) (t : term)
| ClickLoadMore (this : li)
| SettleTerm (now : Z) (p : nat) (r : reply json)
| SettleChildren (now : Z) (p : nat) (r : reply (list edge))
| SettleStrains (now : Z) (p : nat) (r : reply (list strain))
| Sweep (now : Z).

Definition step (ev : event) (s : state) : state :=
  match ev with
  | CallFetchTerm now id => (fetchTerm now id s).2
  | CallFetchChildren now id => (fetchChildren now id s).2
  | Hover id => mouseenter id s
  | CallShowStrains now t => showStrains now t s
  | ClickLoadMore this =>
      if decide (this ∈ strainList s)
      then set_strainList (loadMore_onclick this) s else s
  | SettleTerm now p r => settle_term now p r s
  | SettleChildren now p r => settle_children now p r s
  | SettleStrains now p r => settle_strains now p r s
  | Sweep now => sweep now s
  end.

Definition run (evs : list event) (s : state) : state :=
  foldl (λ s' ev, step ev s') s evs.

Definition reachable (s : state) : Prop := ∃ evs, s = run evs init_state.

(** Promise [p] is a request of chain [c] still in flight. *)
Definition in_flight (s : state) (p : nat) (c : chain) : Prop :=
  promises s !! p = Some {| p_chain := c; p_state := None |}.

(** ** Vocabulary of the statements *)

Definition is_link (x : li) : bool :=
  match x with StrainLink _ _ => true | _ => false end.

Definition is_control (x : li) : bool :=
  match x with LoadMore _ _ => true | _ => false end.

(** The part of the state the page's label and list do not belong to. *)
Definition net (s : state) :=
  (promises s, pendingRequests s, remoteCalls s, prefetchQueue s,
   termCache s, childrenCache s, strainsCache s).

(** What an event does to [promises], [pendingRequests] and [remoteCalls]:
    nothing; or one request is dispatched under a key with no pending entry;
    or one request in flight settles, its key being deleted unless the
    promise is [showStrains]'s and rejects. *)
Inductive transition (s s' : state) : Prop :=
| t_frame :
    promises s' = promises s → pendingRequests s' = pendingRequests s →
    remoteCalls s' = remoteCalls s →
    transition s s'
| t_dispatch c :
    pendingRequests s !! requestKey c = None →
    promises s' = promises s ++ [{| p_chain := c; p_state := None |}] →
    pendingRequests s' = <[requestKey c := length (promises s)]> (pendingRequests s) →
    remoteCalls s' = remoteCalls s ++ [url c] →
    transition s s'
| t_settle p c r :
    in_flight s p c →
    promises s' = <[p := {| p_chain := c; p_state := Some r |}]> (promises s) →
    remoteCalls s' = remoteCalls s →
    (match r, c with
     | Rejected _, ShowChain _ => pendingRequests s' = pendingRequests s
     | Rejected _, _ => False
     | Fulfilled _, _ =>
         pendingRequests s' = delete (requestKey c) (pendingRequests s)
     end) →
    transition s s'.

(** Every request in flight is the one registered under its key. *)
Definition registered (s : state) : Prop :=
  ∀ p c, in_flight s p c → pendingRequests s !! requestKey c = Some p.

(** Calls made one after the other at the given times, with no settlement
    in between; the list holds what each caller gets back. *)
Fixpoint calls {A} (fetch : Z → state → returned A * state) (times : list Z)
    (s : state) : list (returned A) * state :=
  match times with
  | [] => ([], s)
  | now :: rest =>
      let '(r, s1) := fetch now s in
      let '(rs, s2) := calls fetch rest s1 in
      (r :: rs, s2)
  end.

Definition caches (s : state) := (termCache s, childrenCache s, strainsCache s).

(** Only [showStrains]'s own promise can reject. *)
Definition only_show_rejects (s : state) : Prop :=
  ∀ p c e, promises s !! p = Some {| p_chain := c; p_state := Some (Rejected e) |} →
           ∃ goId, c = ShowChain goId.

Definition biological_process : term :=
  {| go_id := "GO:0008150"; name := "biological_process" |}.

(** The page after a term, its children and its strains were fetched and
    stored at [t = 0]. *)
Definition warm : state :=
  run [CallFetchTerm 0 "GO:0008150";
       SettleTerm 0 0 (Response true (inr (JStr "biological_process")));
       CallFetchChildren 0 "GO:0008150";
       SettleChildren 0 1 (Response true (inr [{| child_go_id := "GO:0000003" |}]));
       Hover "GO:0008150";
       SettleStrains 0 2 (Response true (inr [{| mmrrc_id := "7" |}]))]
      init_state.

(** A term request, a children request and a prefetch in flight. *)
Definition busy : state :=
  run [CallFetchTerm 0 "GO:0008150"; CallFetchChildren 0 "GO:0008150";
       Hover "GO:0008150"] init_state.

Definition strains_upto (n : nat) : list strain :=
  map (λ i, {| mmrrc_id := pretty i |}) (seq 0 n).

(** ** The callers of the fetchers, and the pages of the simple variant *)

(** [ids.map(id => fetchTerm(id))], as [init] does on [ROOT_TERMS] and the
    click handler of [buildNode] on the children's [child_go_id]: the calls
    are made in order, call number [i] reading the clock as [clock i]. *)
Fixpoint fetchTerm_map (clock : nat → Z) (i : nat) (ids : list string) (s : state)
  : list (returned json) * state :=
  match ids with
  | [] => ([], s)
  | id :: rest =>
      let '(r, s1) := fetchTerm (clock i) id s in
      let '(rs, s2) := fetchTerm_map clock (S i) rest s1 in
      (r :: rs, s2)
  end.

Definition ROOT_TERMS : list string := ["GO:0008150"; "GO:0005575"; "GO:0003674"].

(** [const rootTermsPromises = ROOT_TERMS.map(id => fetchTerm(id))] of [init]. *)
Definition init_fetch (clock : nat → Z) (s : state) : list (returned json) * state :=
  fetchTerm_map clock 0 ROOT_TERMS s.

(** [children.map(child => fetchTerm(child.child_go_id))] of the click
    handler. *)
Definition click_fetch (clock : nat → Z) (children : list edge) (s : state)
  : list (returned json) * state :=
  fetchTerm_map clock 0 (map child_go_id children) s.

(** [s'] is [s] after the requests of [cs] were dispatched one after the
    other, each under a key that had no pending entry. *)
Inductive dispatched : list chain → state → state → Prop :=
| dispatched_nil s : dispatched [] s s
| dispatched_cons c cs s s' :
    pendingRequests s !! requestKey c = None →
    dispatched cs (dispatch c s).2 s' →
    dispatched (c :: cs) s s'.

(** The page of the simple variant: [src/ddb.js] keeps no pending map, so a
    [showStrains] call is its start, up to [await fetch(...)], and its
    resumption with the browser's answer. *)
Module DdbPage.

Record page := {
  label : string;
  strainList : list li;
  console : list (string * error)
}.

Definition init_page : page := {| label := ""; strainList := []; console := [] |}.

(** [renderStrains] of [src/ddb.js]: every strain at once. *)
Definition renderStrains (strains : list strain) : list li :=
  if decide (length strains = 0%nat)
  then [Message "text-gray-500" "No strains linked to this term."]
  else map strain_li strains.

Definition showStrains_start (t : term) (s : Ddb.state) (pg : page)
  : Ddb.started unit * page :=
  let lbl := name t +:+ " (" +:+ go_id t +:+ ")" in
  match Ddb.strainsCache s !! go_id t with
  | Some strains =>
      (Ddb.Hit (),
       {| label := lbl; strainList := renderStrains strains; console := console pg |})
  | None =>
      (Ddb.Suspended (GetStrains (go_id t)),
       {| label := lbl;
          strainList := [Message "text-gray-500" "Loading strains..."];
          console := console pg |})
  end.

Definition showStrains_resume (t : term) (r : reply (list strain))
    (s : Ddb.state) (pg : page) : Ddb.state * page :=
  match ok_json_or [] r with
  | inr strains =>
      ({| Ddb.termCache := Ddb.termCache s;
          Ddb.childrenCache := Ddb.childrenCache s;
          Ddb.strainsCache := <[go_id t := strains]> (Ddb.strainsCache s) |},
       {| label := label pg; strainList := renderStrains strains;
          console := console pg |})
  | inl e =>
      (s, {| label := label pg;
             strainList := [Message "text-red-500" "Error loading strains."];
             console := console pg ++ [("Error fetching strains:", e)] |})
  end.

End DdbPage.

(** A pending entry names a promise built for that key; the promise is in
    flight, or it is a promise of [showStrains] that rejected. *)
Definition pending_classified (s : state) : Prop :=
  ∀ k p, pendingRequests s !! k = Some p →
         ∃ c st, promises s !! p = Some {| p_chain := c; p_state := st |}
                 ∧ requestKey c = k
                 ∧ (st = None
                    ∨ ∃ goId e, c = ShowChain goId ∧ st = Some (Rejected e)).

(** What an event does to [promises] and to [prefetchQueue] together. *)
Inductive marking (s s' : state) : Prop :=
| m_frame :
    promises s' = promises s → prefetchQueue s ⊆ prefetchQueue s' →
    marking s s'
| m_dispatch c :
    promises s' = promises s ++ [{| p_chain := c; p_state := None |}] →
    prefetchQueue s ⊆ prefetchQueue s' →
    (∀ id, c = PrefetchChain id → id ∈ prefetchQueue s') →
    marking s s'
| m_settle p c r :
    in_flight s p c →
    promises s' = <[p := {| p_chain := c; p_state := Some r |}]> (promises s) →
    (prefetchQueue s' = prefetchQueue s
     ∨ ∃ id, c = PrefetchChain id ∧ prefetchQueue s' = prefetchQueue s ∖ {[id]}) →
    marking s s'.

Definition marked (s : state) : Prop :=
  ∀ p id, in_flight s p (PrefetchChain id) → id ∈ prefetchQueue s.

(** The hover prefetch of [GO:0008150] in flight, nothing else. *)
Definition hovering : state := run [Hover "GO:0008150"] init_state.

(** * Properties *)

(** Reduce the projections of updated states; an update that is not under
    a projection stays folded. *)
Ltac fields :=
  cbn [termCache childrenCache strainsCache pendingRequests prefetchQueue
       promises remoteCalls console awaiting label strainList fst snd
       console_error set_termCache set_childrenCache set_strainsCache
       set_pendingRequests set_prefetchQueue set_promises set_remoteCalls
       set_console set_awaiting set_label set_strainList] in *.

(** ** The cache read *)

Lemma cached_fresh_Some {A} (cache : gmap string (entry A)) id now v :
  cached_fresh cache id now = Some v
  ↔ ∃ e, cache !! id = Some e ∧ data e = v ∧ now - timestamp e < CACHE_EXPIRY.
Proof.
  unfold cached_fresh. split.
  - destruct (cache !! id) as [e|]; [|discriminate].
    case_bool_decide; [|discriminate]. intros [= <-]. by exists e.
  - intros (e & -> & <- & Hlt). by rewrite bool_decide_true.
Qed.

Lemma cached_fresh_None {A} (cache : gmap string (entry A)) id now :
  cached_fresh cache id now = None
  ↔ cache !! id = None
    ∨ ∃ e, cache !! id = Some e ∧ CACHE_EXPIRY ≤ now - timestamp e.
Proof.
  unfold cached_fresh. split.
  - destruct (cache !! id) as [e|]; [|by left].
    case_bool_decide; [discriminate|]. intros _. right. exists e. split; [done|lia].
  - intros [-> | (e & -> & Hge)]; [done|]. rewrite bool_decide_false; [done|lia].
Qed.

Lemma cached_fresh_delete {A} (cache : gmap string (entry A)) id now :
  cached_fresh (delete id cache) id now = None.
Proof. unfold cached_fresh. by rewrite lookup_delete_eq. Qed.

(** A stale or missing entry is to [fetchTerm] what no entry is. *)
Lemma fetchTerm_stale now id s :
  cached_fresh (termCache s) id now = None →
  fetchTerm now id (set_termCache (delete id) s)
  = ((fetchTerm now id s).1, set_termCache (delete id) (fetchTerm now id s).2)
  ∧ ∃ p, (fetchTerm now id s).1 = Promised p.
Proof.
  intros Hmiss. unfold fetchTerm. rewrite Hmiss.
  fields. rewrite cached_fresh_delete.
  destruct (pendingRequests s !! requestKey (TermChain id)) as [p|]; eauto.
Qed.

Lemma fetchChildren_stale now id s :
  cached_fresh (childrenCache s) id now = None →
  fetchChildren now id (set_childrenCache (delete id) s)
  = ((fetchChildren now id s).1,
     set_childrenCache (delete id) (fetchChildren now id s).2)
  ∧ ∃ p, (fetchChildren now id s).1 = Promised p.
Proof.
  intros Hmiss. unfold fetchChildren. rewrite Hmiss.
  fields. rewrite cached_fresh_delete.
  destruct (pendingRequests s !! requestKey (ChildrenChain id)) as [p|]; eauto.
Qed.

Lemma showStrains_stale now t s :
  cached_fresh (strainsCache s) (go_id t) now = None →
  showStrains now t (set_strainsCache (delete (go_id t)) s)
  = set_strainsCache (delete (go_id t)) (showStrains now t s).
Proof.
  intros Hmiss. unfold showStrains. fields. rewrite Hmiss, cached_fresh_delete.
  destruct (pendingRequests s !! requestKey (ShowChain (go_id t))) as [p|].
  - unfold await. fields. destruct (promises s !! p) as [[c [r|]]|]; [|done..].
    unfold showStrains_resume, showStrains_catch.
    destruct r as [[]|]; try destruct (true); reflexivity.
  - unfold dispatch, await. fields.
    destruct (_ !! _) as [[c [r|]]|]; [|done..].
    unfold showStrains_resume, showStrains_catch.
    destruct r as [[]|]; reflexivity.
Qed.

(** C3: in each of the three cache namespaces, the read made by the fetcher
    yields the stored value exactly when an entry is present whose age
    [now - timestamp] is strictly below the TTL; when the entry is absent or
    its age is at least the TTL the fetcher goes on exactly as it does with
    no entry at all (same returned promise, same effects). *)
Theorem cache_read_fresh_iff (now : Z) (s : state) (id : string) (t : term) :
  (* term *)
  ((∀ v, (fetchTerm now id s).1 = Immediate v
         ↔ ∃ e, termCache s !! id = Some e ∧ data e = v
                ∧ now - timestamp e < CACHE_EXPIRY)
   ∧ (termCache s !! id = None
      ∨ (∃ e, termCache s !! id = Some e ∧ CACHE_EXPIRY ≤ now - timestamp e) →
      fetchTerm now id (set_termCache (delete id) s)
      = ((fetchTerm now id s).1, set_termCache (delete id) (fetchTerm now id s).2)
      ∧ ∃ p, (fetchTerm now id s).1 = Promised p))
  (* children *)
  ∧ ((∀ v, (fetchChildren now id s).1 = Immediate v
           ↔ ∃ e, childrenCache s !! id = Some e ∧ data e = v
                  ∧ now - timestamp e < CACHE_EXPIRY)
     ∧ (childrenCache s !! id = None
        ∨ (∃ e, childrenCache s !! id = Some e ∧ CACHE_EXPIRY ≤ now - timestamp e) →
        fetchChildren now id (set_childrenCache (delete id) s)
        = ((fetchChildren now id s).1,
           set_childrenCache (delete id) (fetchChildren now id s).2)
        ∧ ∃ p, (fetchChildren now id s).1 = Promised p))
  (* strains *)
  ∧ ((∀ v, cached_fresh (strainsCache s) (go_id t) now = Some v
           ↔ ∃ e, strainsCache s !! go_id t = Some e ∧ data e = v
                  ∧ now - timestamp e < CACHE_EXPIRY)
     ∧ (∀ v, cached_fresh (strainsCache s) (go_id t) now = Some v →
             strainList (showStrains now t s) = renderStrains v)
     ∧ (strainsCache s !! go_id t = None
        ∨ (∃ e, strainsCache s !! go_id t = Some e
                ∧ CACHE_EXPIRY ≤ now - timestamp e) →
        showStrains now t (set_strainsCache (delete (go_id t)) s)
        = set_strainsCache (delete (go_id t)) (showStrains now t s))).
Proof.
  repeat split.
  - unfold fetchTerm. intros H. apply cached_fresh_Some.
    destruct (cached_fresh _ _ _) as [w|]; [by inversion H|].
    destruct (_ !! _); [discriminate|]. by destruct (dispatch _ _).
  - intros H. apply cached_fresh_Some in H. unfold fetchTerm. by rewrite H.
  - apply fetchTerm_stale. by apply cached_fresh_None.
  - apply fetchTerm_stale. by apply cached_fresh_None.
  - unfold fetchChildren. intros H. apply cached_fresh_Some.
    destruct (cached_fresh _ _ _) as [w|]; [by inversion H|].
    destruct (_ !! _); [discriminate|]. by destruct (dispatch _ _).
  - intros H. apply cached_fresh_Some in H. unfold fetchChildren. by rewrite H.
  - apply fetchChildren_stale. by apply cached_fresh_None.
  - apply fetchChildren_stale. by apply cached_fresh_None.
  - apply cached_fresh_Some.
  - apply cached_fresh_Some.
  - intros v Hv. unfold showStrains. fields. by rewrite Hv.
  - intros H. apply showStrains_stale. by apply cached_fresh_None.
Qed.

(** C9: a cache hit returns (or renders) the cached value and changes no
    shared state: the caches keep their entries and timestamps, no pending
    request is created or removed, the prefetch set is untouched and no
    remote call is issued.  [showStrains] only writes the label and the list
    of the page. *)
Theorem cache_hit_frame (now : Z) (s : state) :
  (∀ id e, termCache s !! id = Some e → now - timestamp e < CACHE_EXPIRY →
           fetchTerm now id s = (Immediate (data e), s))
  ∧ (∀ id e, childrenCache s !! id = Some e → now - timestamp e < CACHE_EXPIRY →
             fetchChildren now id s = (Immediate (data e), s))
  ∧ (∀ t e, strainsCache s !! go_id t = Some e →
            now - timestamp e < CACHE_EXPIRY →
            let s' := showStrains now t s in
            strainList s' = renderStrains (data e)
            ∧ termCache s' = termCache s
            ∧ childrenCache s' = childrenCache s
            ∧ strainsCache s' = strainsCache s
            ∧ pendingRequests s' = pendingRequests s
            ∧ prefetchQueue s' = prefetchQueue s
            ∧ promises s' = promises s
            ∧ remoteCalls s' = remoteCalls s
            ∧ console s' = console s
            ∧ awaiting s' = awaiting s).
Proof.
  split; [|split].
  - intros id e He Hfresh. unfold fetchTerm.
    assert (cached_fresh (termCache s) id now = Some (data e)) as ->; [|done].
    apply cached_fresh_Some. eauto.
  - intros id e He Hfresh. unfold fetchChildren.
    assert (cached_fresh (childrenCache s) id now = Some (data e)) as ->; [|done].
    apply cached_fresh_Some. eauto.
  - intros t e He Hfresh. cbv zeta. unfold showStrains. fields.
    assert (cached_fresh (strainsCache s) (go_id t) now = Some (data e)) as ->.
    { apply cached_fresh_Some. eauto. }
    fields. repeat split.
Qed.

(** ** The bounded renderer *)

Lemma filter_links_ne (this : li) (l : list strain) :
  is_link this = false →
  filter (λ x, x ≠ this) (map strain_li l) = map strain_li l.
Proof.
  intros Hthis. induction l as [|st l IH]; [done|].
  cbn [map]. rewrite filter_cons_True.
  - by rewrite IH.
  - intros <-. discriminate.
Qed.

Lemma controls_links (l : list strain) :
  filter is_control (map strain_li l) = [].
Proof.
  induction l as [|st l IH]; [done|]. cbn [map].
  rewrite filter_cons_False; [done|]. cbn. intros [].
Qed.

Lemma links_links (l : list strain) :
  filter is_link (map strain_li l) = map strain_li l.
Proof.
  induction l as [|st l IH]; [done|]. cbn [map].
  rewrite filter_cons_True; [by rewrite IH|]. by cbn.
Qed.

(** More strains than the initial batch: the first [INITIAL_RENDER_COUNT] and
    one control; a click replaces the control by all the others. *)
Lemma renderStrains_more (strains : list strain) :
  (INITIAL_RENDER_COUNT < length strains)%nat →
  renderStrains strains
  = map strain_li (take INITIAL_RENDER_COUNT strains) ++ [loadMoreLi strains]
  ∧ loadMore_onclick (loadMoreLi strains) (renderStrains strains)
    = map strain_li strains.
Proof.
  intros Hlen. unfold renderStrains.
  rewrite decide_False by (unfold INITIAL_RENDER_COUNT in *; lia).
  rewrite decide_True by done. split; [done|].
  unfold loadMore_onclick, loadMoreLi at 1.
  rewrite filter_app, filter_links_ne by done.
  rewrite filter_cons_False, filter_nil by (by intros H; apply H).
  rewrite app_nil_r, <- map_app. by rewrite take_drop.
Qed.

Lemma renderStrains_few (strains : list strain) :
  (0 < length strains ≤ INITIAL_RENDER_COUNT)%nat →
  renderStrains strains = map strain_li strains.
Proof.
  intros Hlen. unfold renderStrains.
  rewrite decide_False by lia. rewrite decide_False by lia.
  rewrite app_nil_r. by rewrite take_ge by lia.
Qed.

(** C8: of 150 strains the renderer shows exactly the first 100 and exactly
    one load-more control; activating the control appends the remaining 50
    in one batch and removes the control, leaving all 150 in order.  With at
    most 100 strains (50 for one) there is no control and every strain is
    rendered at once. *)
Theorem renderStrains_load_more (strains : list strain) :
  (length strains = 150%nat →
   let shown := renderStrains strains in
   let after := loadMore_onclick (loadMoreLi strains) shown in
   shown = map strain_li (take 100 strains) ++ [loadMoreLi strains]
   ∧ length (filter is_link shown) = 100%nat
   ∧ filter is_control shown = [loadMoreLi strains]
   ∧ after = map strain_li (take 100 strains) ++ map strain_li (drop 100 strains)
   ∧ length (drop 100 strains) = 50%nat
   ∧ after = map strain_li strains
   ∧ filter is_control after = [])
  ∧ ((length strains ≤ 100)%nat →
     filter is_control (renderStrains strains) = []
     ∧ filter is_link (renderStrains strains) = map strain_li strains).
Proof.
  split.
  - intros Hlen. cbv zeta.
    destruct (renderStrains_more strains) as [Hshown Hafter];
      [unfold INITIAL_RENDER_COUNT; lia|].
    rewrite Hafter, Hshown. change INITIAL_RENDER_COUNT with 100%nat.
    repeat split.
    + rewrite filter_app, links_links.
      rewrite filter_cons_False, filter_nil by (cbn; intros []).
      rewrite app_nil_r, length_map, length_take. lia.
    + rewrite filter_app, controls_links. by rewrite filter_cons_True.
    + by rewrite <- map_app, take_drop.
    + rewrite length_drop. lia.
    + apply controls_links.
  - intros Hlen. destruct strains as [|st strains].
    + done.
    + rewrite renderStrains_few by (unfold INITIAL_RENDER_COUNT; cbn in *; lia).
      split; [apply controls_links | apply links_links].
Qed.

(** ** The sweep *)

(** The deleting loop, whatever map [acc] it deletes from. *)
Lemma sweep_loop_lookup {A} (now : Z) (acc cache : gmap string (entry A)) k :
  map_fold (λ key value acc,
              if bool_decide (now - timestamp value > CACHE_EXPIRY)
              then delete key acc else acc) acc cache !! k
  = match cache !! k with
    | Some e => if bool_decide (now - timestamp e > CACHE_EXPIRY)
                then None else acc !! k
    | None => acc !! k
    end.
Proof.
  revert k.
  apply (map_fold_weak_ind
           (λ r (m : gmap string (entry A)), ∀ k,
              r !! k = match m !! k with
                       | Some e => if bool_decide (now - timestamp e > CACHE_EXPIRY)
                                   then None else acc !! k
                       | None => acc !! k
                       end)).
  - intros k. by rewrite lookup_empty.
  - intros i x m r Hi IH k. destruct (decide (i = k)) as [->|Hne].
    + rewrite lookup_insert_eq. specialize (IH k). rewrite Hi in IH.
      case_bool_decide; [by rewrite lookup_delete_eq | done].
    + rewrite lookup_insert_ne by done. rewrite <- IH.
      case_bool_decide; [by rewrite lookup_delete_ne | done].
Qed.

Lemma sweep_cache_lookup {A} (now : Z) (cache : gmap string (entry A)) k :
  sweep_cache now cache !! k
  = match cache !! k with
    | Some e => if bool_decide (now - timestamp e > CACHE_EXPIRY)
                then None else Some e
    | None => None
    end.
Proof.
  unfold sweep_cache. rewrite sweep_loop_lookup.
  destruct (cache !! k) eqn:E; [|done]. by case_bool_decide.
Qed.

Lemma sweep_cache_Some {A} (now : Z) (cache : gmap string (entry A)) k e :
  sweep_cache now cache !! k = Some e
  ↔ cache !! k = Some e ∧ now - timestamp e ≤ CACHE_EXPIRY.
Proof.
  rewrite sweep_cache_lookup. destruct (cache !! k) as [e'|].
  - case_bool_decide; split.
    + discriminate.
    + intros [[= ->] ?]. lia.
    + intros [= ->]. split; [done|lia].
    + by intros [? _].
  - split; [discriminate | by intros [? _]].
Qed.

(** C6 as it is stated fails at age = TTL: a term stored at [t = 0] is still
    in the term cache after the sweep run at [now = TTL]. *)
Lemma sweep_keeps_age_ttl :
  ¬ (∀ now s k e,
      termCache s !! k = Some e → CACHE_EXPIRY ≤ now - timestamp e →
      termCache (sweep now s) !! k = None).
Proof.
  intros H.
  specialize (H CACHE_EXPIRY warm "GO:0008150"
                {| data := JStr "biological_process"; timestamp := 0 |}).
  vm_compute in H. discriminate H; [reflexivity | discriminate].
Qed.

(** C6, amended: a sweep run at [now] removes from each of the three caches
    exactly the entries whose age [now - timestamp] is strictly greater than
    the TTL and keeps every other entry as it is; an entry set at [t = 0] is
    removed by the sweep at [now = TTL + 1], and a read at that time misses;
    the sweep period, 300000 ms, is a sixth of the TTL and shorter than it. *)
Theorem sweep_removes_older_than_ttl (now : Z) (s : state) (k : string) :
  (∀ e, termCache (sweep now s) !! k = Some e
        ↔ termCache s !! k = Some e ∧ now - timestamp e ≤ CACHE_EXPIRY)
  ∧ (∀ e, childrenCache (sweep now s) !! k = Some e
          ↔ childrenCache s !! k = Some e ∧ now - timestamp e ≤ CACHE_EXPIRY)
  ∧ (∀ e, strainsCache (sweep now s) !! k = Some e
          ↔ strainsCache s !! k = Some e ∧ now - timestamp e ≤ CACHE_EXPIRY)
  ∧ (∀ e, termCache s !! k = Some e → timestamp e = 0 →
          termCache (sweep (CACHE_EXPIRY + 1) s) !! k = None
          ∧ cached_fresh (termCache (sweep (CACHE_EXPIRY + 1) s)) k
                         (CACHE_EXPIRY + 1) = None)
  ∧ SWEEP_INTERVAL = CACHE_EXPIRY / 6
  ∧ SWEEP_INTERVAL < CACHE_EXPIRY.
Proof.
  unfold sweep. fields.
  split; [intros e; apply sweep_cache_Some|].
  split; [intros e; apply sweep_cache_Some|].
  split; [intros e; apply sweep_cache_Some|].
  split; [|done].
  intros e He Hts. unfold cached_fresh.
  rewrite sweep_cache_lookup, He, Hts. by rewrite bool_decide_true by lia.
Qed.

(** ** How one event changes the promise heap and the pending map *)

Lemma showStrains_resume_net b r s : net (showStrains_resume b r s) = net s.
Proof.
  unfold showStrains_resume, showStrains_catch.
  destruct r as [[]|]; try destruct b; reflexivity.
Qed.

Lemma await_net p b s : net (await p b s) = net s.
Proof.
  unfold await. destruct (promises s !! p) as [[c [r|]]|]; try reflexivity.
  apply showStrains_resume_net.
Qed.

Lemma wake_net p r s : net (wake p r s) = net s.
Proof.
  unfold wake.
  change (net s) with (net (set_awaiting (filter (λ w, w.1 ≠ p)) s)).
  generalize (set_awaiting (filter (λ w, w.1 ≠ p)) s).
  induction (awaiting s) as [|w l IH]; intros s0; [done|].
  cbn [foldl]. rewrite IH. case_decide; [apply showStrains_resume_net | done].
Qed.

Lemma net_eq s s' :
  net s' = net s →
  promises s' = promises s ∧ pendingRequests s' = pendingRequests s
  ∧ remoteCalls s' = remoteCalls s ∧ prefetchQueue s' = prefetchQueue s
  ∧ termCache s' = termCache s ∧ childrenCache s' = childrenCache s
  ∧ strainsCache s' = strainsCache s.
Proof. unfold net. intros [= -> -> -> -> -> -> ->]. done. Qed.

Lemma resolve_promises p r s pr :
  promises s !! p = Some pr →
  promises (resolve p r s)
  = <[p := {| p_chain := p_chain pr; p_state := Some r |}]> (promises s).
Proof. intros H. unfold resolve. fields. by rewrite H. Qed.

Lemma transition_net s s1 s' :
  net s' = net s1 → transition s s1 → transition s s'.
Proof.
  intros (Hp & Hq & Hr & _)%net_eq [H1 H2 H3|c H0 H1 H2 H3|p c r H0 H1 H2 H3].
  - apply t_frame; congruence.
  - apply (t_dispatch _ _ c); congruence.
  - apply (t_settle _ _ p c r); try congruence.
    destruct r, c; congruence.
Qed.

Lemma dispatch_transition c s :
  pendingRequests s !! requestKey c = None →
  transition s (dispatch c s).2.
Proof. intros H. by apply (t_dispatch _ _ c). Qed.

Lemma fetchTerm_transition now id s : transition s (fetchTerm now id s).2.
Proof.
  unfold fetchTerm. destruct (cached_fresh _ _ _); [by apply t_frame|].
  destruct (pendingRequests s !! _) eqn:E; [by apply t_frame|].
  by apply dispatch_transition.
Qed.

Lemma fetchChildren_transition now id s : transition s (fetchChildren now id s).2.
Proof.
  unfold fetchChildren. destruct (cached_fresh _ _ _); [by apply t_frame|].
  destruct (pendingRequests s !! _) eqn:E; [by apply t_frame|].
  by apply dispatch_transition.
Qed.

Lemma mouseenter_transition id s : transition s (mouseenter id s).
Proof.
  unfold mouseenter. destruct (_ && _); [|by apply t_frame].
  unfold prefetchStrains. fields.
  destruct (pendingRequests s !! _) eqn:E; [by apply t_frame|].
  by apply (t_dispatch _ _ (PrefetchChain id)).
Qed.

Lemma showStrains_transition now t s : transition s (showStrains now t s).
Proof.
  unfold showStrains. fields.
  destruct (cached_fresh _ _ _); [by apply t_frame|].
  destruct (pendingRequests s !! _) eqn:E.
  - eapply transition_net; [apply await_net|]. by apply t_frame.
  - eapply transition_net; [apply await_net|].
    by apply (t_dispatch _ _ (ShowChain (go_id t))).
Qed.

(** Close a [t_settle] goal for the promise [p] whose lookup is [E]. *)
Ltac settles p c E :=
  eapply (t_settle _ _ p c);
  [ exact E
  | erewrite resolve_promises by exact E; reflexivity
  | reflexivity
  | reflexivity ].

Lemma settle_term_transition now p r s : transition s (settle_term now p r s).
Proof.
  unfold settle_term.
  destruct (promises s !! p) as [[[id|id|id|id] [st|]]|] eqn:E;
    try by apply t_frame.
  destruct (ok_json_or JNull r) as [e|d]; [|destruct (truthy d)];
    settles p (TermChain id) E.
Qed.

Lemma settle_children_transition now p r s :
  transition s (settle_children now p r s).
Proof.
  unfold settle_children.
  destruct (promises s !! p) as [[[id|id|id|id] [st|]]|] eqn:E;
    try by apply t_frame.
  destruct (ok_json_or [] r) as [e|d]; settles p (ChildrenChain id) E.
Qed.

Lemma settle_strains_transition now p r s :
  transition s (settle_strains now p r s).
Proof.
  unfold settle_strains.
  destruct (promises s !! p) as [[[id|id|id|id] [st|]]|] eqn:E;
    try by apply t_frame.
  - eapply transition_net; [apply wake_net|].
    destruct (ok_json_or [] r) as [e|d]; settles p (PrefetchChain id) E.
  - destruct (ok_json_or [] r) as [e|d];
      (eapply transition_net; [apply wake_net|]);
      settles p (ShowChain id) E.
Qed.

Lemma step_transition ev s : transition s (step ev s).
Proof.
  destruct ev; cbn [step].
  - apply fetchTerm_transition.
  - apply fetchChildren_transition.
  - apply mouseenter_transition.
  - apply showStrains_transition.
  - case_decide; by apply t_frame.
  - apply settle_term_transition.
  - apply settle_children_transition.
  - apply settle_strains_transition.
  - by apply t_frame.
Qed.

Lemma run_snoc evs ev s : run (evs ++ [ev]) s = step ev (run evs s).
Proof. unfold run. by rewrite foldl_app. Qed.

(** An invariant of the initial state kept by every transition holds in
    every reachable state. *)
Lemma reachable_ind (P : state → Prop) :
  P init_state →
  (∀ s s', P s → transition s s' → P s') →
  ∀ s, reachable s → P s.
Proof.
  intros H0 Hstep s [evs ->].
  induction evs as [|ev evs IH] using rev_ind; [done|].
  rewrite run_snoc. eapply Hstep; [apply IH | apply step_transition].
Qed.

Lemma registered_transition s s' :
  registered s → transition s s' → registered s'.
Proof.
  intros Hreg [H1 H2 _|c H0 H1 H2 _|p c r H0 H1 _ H3] q d; unfold in_flight.
  - rewrite H1, H2. apply Hreg.
  - rewrite H1, H2. intros Hq.
    destruct (decide (q < length (promises s))%nat) as [Hlt|Hge].
    + rewrite lookup_app_l in Hq by done.
      pose proof (Hreg q d Hq) as Hd.
      rewrite lookup_insert_ne; [done|]. intros Heq. congruence.
    + rewrite lookup_app_r in Hq by lia.
      destruct (q - length (promises s))%nat as [|n] eqn:En; [|done].
      injection Hq as <-. rewrite lookup_insert_eq. f_equal. lia.
  - rewrite H1. intros Hq.
    destruct (decide (p = q)) as [->|Hne].
    + rewrite list_lookup_insert_eq in Hq by (by eapply lookup_lt_Some).
      discriminate.
    + rewrite list_lookup_insert_ne in Hq by done.
      pose proof (Hreg q d Hq) as Hd. pose proof (Hreg p c H0) as Hc.
      destruct r, c; try done; try congruence;
        (rewrite H3, lookup_delete_ne; [done|]; intros Heq; congruence).
Qed.

Lemma registered_reachable s : reachable s → registered s.
Proof.
  apply reachable_ind.
  - intros p c. unfold in_flight, init_state. cbn [promises].
    by rewrite lookup_nil.
  - apply registered_transition.
Qed.

(** ** Deduplication of concurrent calls *)

Lemma fetchTerm_joins id times s p :
  pendingRequests s !! requestKey (TermChain id) = Some p →
  (∀ t, t ∈ times → cached_fresh (termCache s) id t = None) →
  calls (λ t, fetchTerm t id) times s = (replicate (length times) (Promised p), s).
Proof.
  intros Hp. induction times as [|t times IH]; intros Hmiss; [done|].
  cbn [calls length replicate]. unfold fetchTerm at 1.
  rewrite (Hmiss t) by apply list_elem_of_here. rewrite Hp.
  rewrite IH; [done|]. intros t' Ht'. apply Hmiss. by apply list_elem_of_further.
Qed.

Lemma fetchChildren_joins id times s p :
  pendingRequests s !! requestKey (ChildrenChain id) = Some p →
  (∀ t, t ∈ times → cached_fresh (childrenCache s) id t = None) →
  calls (λ t, fetchChildren t id) times s
  = (replicate (length times) (Promised p), s).
Proof.
  intros Hp. induction times as [|t times IH]; intros Hmiss; [done|].
  cbn [calls length replicate]. unfold fetchChildren at 1.
  rewrite (Hmiss t) by apply list_elem_of_here. rewrite Hp.
  rewrite IH; [done|]. intros t' Ht'. apply Hmiss. by apply list_elem_of_further.
Qed.

Lemma in_flight_unique s p1 p2 c1 c2 :
  reachable s → in_flight s p1 c1 → in_flight s p2 c2 →
  requestKey c1 = requestKey c2 → p1 = p2.
Proof.
  intros Hs H1%(registered_reachable s Hs) H2%(registered_reachable s Hs) Hk.
  congruence.
Qed.

(** C2: calls of [fetchTerm(id)] for an uncached [id], issued one after the
    other before the request settles, cause exactly one remote call to
    [/go/{id}] and all get the same promise, hence the same result, whatever
    the browser answers.  The first call registers the promise in
    [pendingRequests] before it returns, the later calls change nothing.  The
    same holds of [fetchChildren].  In every reachable state two requests in
    flight under one key are the same request. *)
Theorem concurrent_calls_share_one_request (id : string) (now : Z)
    (later : list Z) (s : state) :
  (pendingRequests s !! requestKey (TermChain id) = None →
   (∀ t, t ∈ now :: later → cached_fresh (termCache s) id t = None) →
   let s' := (fetchTerm now id s).2 in
   ∃ p, calls (λ t, fetchTerm t id) (now :: later) s
        = (replicate (S (length later)) (Promised p), s')
        ∧ remoteCalls s' = remoteCalls s ++ [GetTerm id]
        ∧ promises s !! p = None
        ∧ in_flight s' p (TermChain id)
        ∧ pendingRequests s' !! requestKey (TermChain id) = Some p
        ∧ ∀ t r, ∃ v, promises (settle_term t p r s') !! p
                      = Some {| p_chain := TermChain id;
                                p_state := Some (Fulfilled (VTerm v)) |})
  ∧ (pendingRequests s !! requestKey (ChildrenChain id) = None →
     (∀ t, t ∈ now :: later → cached_fresh (childrenCache s) id t = None) →
     let s' := (fetchChildren now id s).2 in
     ∃ p, calls (λ t, fetchChildren t id) (now :: later) s
          = (replicate (S (length later)) (Promised p), s')
          ∧ remoteCalls s' = remoteCalls s ++ [GetChildren id]
          ∧ promises s !! p = None
          ∧ in_flight s' p (ChildrenChain id)
          ∧ pendingRequests s' !! requestKey (ChildrenChain id) = Some p
          ∧ ∀ t r, ∃ v, promises (settle_children t p r s') !! p
                        = Some {| p_chain := ChildrenChain id;
                                  p_state := Some (Fulfilled (VEdges v)) |})
  ∧ (∀ s0 p1 p2 c1 c2,
       reachable s0 → in_flight s0 p1 c1 → in_flight s0 p2 c2 →
       requestKey c1 = requestKey c2 → p1 = p2).
Proof.
  split; [|split].
  - intros Hnone Hmiss. cbv zeta. exists (length (promises s)).
    assert (fetchTerm now id s
            = (Promised (length (promises s)), (dispatch (TermChain id) s).2))
      as Hfirst.
    { unfold fetchTerm. rewrite (Hmiss now) by apply list_elem_of_here.
      by rewrite Hnone. }
    assert (in_flight (dispatch (TermChain id) s).2 (length (promises s))
              (TermChain id)) as Hfl.
    { unfold in_flight, dispatch. fields.
      rewrite lookup_app_r by lia. by rewrite Nat.sub_diag. }
    cbn [calls]. rewrite Hfirst. cbn [snd].
    rewrite (fetchTerm_joins id later _ (length (promises s))).
    + repeat split; try done.
      * apply lookup_ge_None. lia.
      * unfold dispatch. fields. apply lookup_insert_eq.
      * intros t r. unfold settle_term. rewrite Hfl.
        destruct (ok_json_or JNull r) as [e|d].
        -- exists JNull. erewrite resolve_promises by exact Hfl.
           apply list_lookup_insert_eq. by eapply lookup_lt_Some.
        -- exists d. erewrite resolve_promises by (by destruct (truthy d)).
           destruct (truthy d); apply list_lookup_insert_eq;
             by eapply lookup_lt_Some.
    + unfold dispatch. fields. apply lookup_insert_eq.
    + intros t Ht. unfold dispatch. fields. apply Hmiss.
      by apply list_elem_of_further.
  - intros Hnone Hmiss. cbv zeta. exists (length (promises s)).
    assert (fetchChildren now id s
            = (Promised (length (promises s)), (dispatch (ChildrenChain id) s).2))
      as Hfirst.
    { unfold fetchChildren. rewrite (Hmiss now) by apply list_elem_of_here.
      by rewrite Hnone. }
    assert (in_flight (dispatch (ChildrenChain id) s).2 (length (promises s))
              (ChildrenChain id)) as Hfl.
    { unfold in_flight, dispatch. fields.
      rewrite lookup_app_r by lia. by rewrite Nat.sub_diag. }
    cbn [calls]. rewrite Hfirst. cbn [snd].
    rewrite (fetchChildren_joins id later _ (length (promises s))).
    + repeat split; try done.
      * apply lookup_ge_None. lia.
      * unfold dispatch. fields. apply lookup_insert_eq.
      * intros t r. unfold settle_children. rewrite Hfl.
        destruct (ok_json_or [] r) as [e|d].
        -- exists []. erewrite resolve_promises by exact Hfl.
           apply list_lookup_insert_eq. by eapply lookup_lt_Some.
        -- exists d. erewrite resolve_promises by exact Hfl.
           apply list_lookup_insert_eq. by eapply lookup_lt_Some.
    + unfold dispatch. fields. apply lookup_insert_eq.
    + intros t Ht. unfold dispatch. fields. apply Hmiss.
      by apply list_elem_of_further.
  - intros s0 p1 p2 c1 c2. apply in_flight_unique.
Qed.

(** ** Where cache entries come from *)

Lemma fetchTerm_net now id s :
  net (fetchTerm now id s).2 = net s
  ∨ (fetchTerm now id s).2 = (dispatch (TermChain id) s).2.
Proof.
  unfold fetchTerm. destruct (cached_fresh _ _ _); [by left|].
  destruct (pendingRequests s !! _); [by left | by right].
Qed.

Lemma fetchChildren_net now id s :
  net (fetchChildren now id s).2 = net s
  ∨ (fetchChildren now id s).2 = (dispatch (ChildrenChain id) s).2.
Proof.
  unfold fetchChildren. destruct (cached_fresh _ _ _); [by left|].
  destruct (pendingRequests s !! _); [by left | by right].
Qed.

Lemma net_caches s s' : net s' = net s → caches s' = caches s.
Proof. intros (_ & _ & _ & _ & H1 & H2 & H3)%net_eq. unfold caches. congruence. Qed.

Lemma showStrains_caches now t s : caches (showStrains now t s) = caches s.
Proof.
  unfold showStrains. fields. destruct (cached_fresh _ _ _); [done|].
  destruct (pendingRequests s !! _).
  - by rewrite (net_caches _ _ (await_net _ _ _)).
  - cbn. by rewrite (net_caches _ _ (await_net _ _ _)).
Qed.

Lemma mouseenter_caches id s : caches (mouseenter id s) = caches s.
Proof.
  unfold mouseenter, prefetchStrains. destruct (_ && _); [|done].
  fields. by destruct (pendingRequests s !! _).
Qed.

(** [settle_term] writes the term cache only on an ok response whose parsed
    value is truthy. *)
Lemma settle_term_caches now p r s :
  childrenCache (settle_term now p r s) = childrenCache s
  ∧ strainsCache (settle_term now p r s) = strainsCache s
  ∧ (termCache (settle_term now p r s) = termCache s
     ∨ ∃ id d, in_flight s p (TermChain id) ∧ r = Response true (inr d)
               ∧ truthy d = true
               ∧ termCache (settle_term now p r s)
                 = <[id := {| data := d; timestamp := now |}]> (termCache s)).
Proof.
  unfold settle_term.
  destruct (promises s !! p) as [[[id|id|id|id] [st|]]|] eqn:E; try by auto.
  destruct r as [e|[] [e|d]]; cbn [ok_json_or]; try by auto.
  destruct (truthy d) eqn:Ht; [|by auto].
  repeat split; try done. right. by exists id, d.
Qed.

(** [settle_children] writes the children cache whenever a response came. *)
Lemma settle_children_caches now p r s :
  termCache (settle_children now p r s) = termCache s
  ∧ strainsCache (settle_children now p r s) = strainsCache s
  ∧ (childrenCache (settle_children now p r s) = childrenCache s
     ∨ ∃ id d, in_flight s p (ChildrenChain id)
               ∧ ((∃ body, r = Response false body ∧ d = [])
                  ∨ r = Response true (inr d))
               ∧ childrenCache (settle_children now p r s)
                 = <[id := {| data := d; timestamp := now |}]> (childrenCache s)).
Proof.
  unfold settle_children.
  destruct (promises s !! p) as [[[id|id|id|id] [st|]]|] eqn:E; try by auto.
  destruct r as [e|[] [e|d]]; cbn [ok_json_or]; try by auto.
  - repeat split; try done. right. exists id, d. eauto.
  - repeat split; try done. right. exists id, []. eauto 6.
  - repeat split; try done. right. exists id, []. eauto 6.
Qed.

Lemma settle_strains_caches now p r s :
  termCache (settle_strains now p r s) = termCache s
  ∧ childrenCache (settle_strains now p r s) = childrenCache s
  ∧ (strainsCache (settle_strains now p r s) = strainsCache s
     ∨ ∃ id d, (in_flight s p (PrefetchChain id) ∨ in_flight s p (ShowChain id))
               ∧ ((∃ body, r = Response false body ∧ d = [])
                  ∨ r = Response true (inr d))
               ∧ strainsCache (settle_strains now p r s)
                 = <[id := {| data := d; timestamp := now |}]> (strainsCache s)).
Proof.
  unfold settle_strains.
  destruct (promises s !! p) as [[[id|id|id|id] [st|]]|] eqn:E; try by auto.
  - destruct r as [e|[] [e|d]]; cbn [ok_json_or];
      match goal with |- context [wake ?p ?r ?s0] =>
        destruct (net_eq _ _ (wake_net p r s0)) as (_ & _ & _ & _ & -> & -> & ->)
      end; try by auto.
    + do 2 (split; [done|]). right. exists id, d. by auto.
    + do 2 (split; [done|]). right. exists id, []. split; [by left|]. eauto.
    + do 2 (split; [done|]). right. exists id, []. split; [by left|]. eauto.
  - destruct r as [e|[] [e|d]]; cbn [ok_json_or];
      match goal with |- context [wake ?p ?r ?s0] =>
        destruct (net_eq _ _ (wake_net p r s0)) as (_ & _ & _ & _ & -> & -> & ->)
      end; try by auto.
    + do 2 (split; [done|]). right. exists id, d. by auto.
    + do 2 (split; [done|]). right. exists id, []. split; [by right|]. eauto.
    + do 2 (split; [done|]). right. exists id, []. split; [by right|]. eauto.
Qed.

(** An insertion shows at [k] only if it is the insertion of [k]. *)
Lemma lookup_insert_new {A} (m : gmap string A) (i k : string) (x e : A) :
  <[i := x]> m !! k = Some e → m !! k ≠ Some e → i = k ∧ e = x.
Proof.
  intros H Hne. destruct (decide (i = k)) as [->|Hik].
  - rewrite lookup_insert_eq in H. by injection H as ->.
  - by rewrite lookup_insert_ne in H.
Qed.

(** C5 as it is stated fails for the children cache: after a 404 for the
    children of [GO:9999999] the cache holds the empty list for that id. *)
Lemma non_ok_children_cached :
  ¬ (∀ now p body s id,
      childrenCache s !! id = None →
      childrenCache (settle_children now p (Response false body) s) !! id = None).
Proof.
  intros H.
  specialize (H 5 0%nat (inl "Not Found") (fetchChildren 0 "GO:9999999" init_state).2
                "GO:9999999" eq_refl).
  vm_compute in H. discriminate H.
Qed.

Lemma step_caches ev s :
  match ev with
  | SettleTerm _ _ _ | SettleChildren _ _ _ | SettleStrains _ _ _ | Sweep _ => True
  | _ => caches (step ev s) = caches s
  end.
Proof.
  destruct ev; cbn [step]; try done.
  - destruct (fetchTerm_net now id s) as [H| ->]; [by apply net_caches | done].
  - destruct (fetchChildren_net now id s) as [H| ->]; [by apply net_caches | done].
  - apply mouseenter_caches.
  - apply showStrains_caches.
  - by case_decide.
Qed.

(** C5, amended: an entry appears in (or replaces one of) the term cache only
    when a term request for that key is answered by an ok response whose
    parsed value is truthy, so a 404 or other non-success response resolves
    to null and leaves the term cache as it is.  An entry appears in the
    children or strains cache only when a request for that key is answered by
    a response: it holds the parsed list when the response is ok and the
    empty list when it is not, so a non-success response does create an
    entry there. *)
Theorem cache_entry_origin (ev : event) (s : state) (k : string) :
  (∀ e, termCache (step ev s) !! k = Some e → termCache s !! k ≠ Some e →
        ∃ now p d, ev = SettleTerm now p (Response true (inr d))
                   ∧ in_flight s p (TermChain k) ∧ truthy d = true
                   ∧ e = {| data := d; timestamp := now |})
  ∧ (∀ e, childrenCache (step ev s) !! k = Some e → childrenCache s !! k ≠ Some e →
          ∃ now p r d, ev = SettleChildren now p r
                       ∧ in_flight s p (ChildrenChain k)
                       ∧ ((∃ body, r = Response false body ∧ d = [])
                          ∨ r = Response true (inr d))
                       ∧ e = {| data := d; timestamp := now |})
  ∧ (∀ e, strainsCache (step ev s) !! k = Some e → strainsCache s !! k ≠ Some e →
          ∃ now p r d, ev = SettleStrains now p r
                       ∧ (in_flight s p (PrefetchChain k)
                          ∨ in_flight s p (ShowChain k))
                       ∧ ((∃ body, r = Response false body ∧ d = [])
                          ∨ r = Response true (inr d))
                       ∧ e = {| data := d; timestamp := now |})
  ∧ (∀ now p body, in_flight s p (TermChain k) →
       termCache (settle_term now p (Response false body) s) = termCache s
       ∧ promises (settle_term now p (Response false body) s) !! p
         = Some {| p_chain := TermChain k;
                   p_state := Some (Fulfilled (VTerm JNull)) |})
  ∧ (∀ now p body, in_flight s p (ChildrenChain k) →
       childrenCache (settle_children now p (Response false body) s) !! k
       = Some {| data := []; timestamp := now |})
  ∧ (∀ now p body,
       in_flight s p (PrefetchChain k) ∨ in_flight s p (ShowChain k) →
       strainsCache (settle_strains now p (Response false body) s) !! k
       = Some {| data := []; timestamp := now |}).
Proof.
  pose proof (step_caches ev s) as Hfr.
  split; [|split; [|split; [|split; [|split]]]].
  - intros e He Hne. destruct ev; cbn beta iota in Hfr; unfold caches in Hfr;
      try (exfalso; congruence).
    + cbn [step] in He.
      destruct (settle_term_caches now p r s) as (_ & _ & [H|H]); [congruence|].
      destruct H as (id & d & Hfl & -> & Ht & Hc). rewrite Hc in He.
      destruct (lookup_insert_new _ _ _ _ _ He Hne) as [-> ->]. eauto 8.
    + cbn [step] in He.
      destruct (settle_children_caches now p r s) as (H & _). congruence.
    + cbn [step] in He.
      destruct (settle_strains_caches now p r s) as (H & _). congruence.
    + cbn [step] in He. unfold sweep in He. fields.
      apply sweep_cache_Some in He as [He _]. done.
  - intros e He Hne. destruct ev; cbn beta iota in Hfr; unfold caches in Hfr;
      try (exfalso; congruence).
    + cbn [step] in He.
      destruct (settle_term_caches now p r s) as (H & _). congruence.
    + cbn [step] in He.
      destruct (settle_children_caches now p r s) as (_ & _ & [H|H]);
        [congruence|].
      destruct H as (id & d & Hfl & Hr & Hc). rewrite Hc in He.
      destruct (lookup_insert_new _ _ _ _ _ He Hne) as [-> ->]. eauto 8.
    + cbn [step] in He.
      destruct (settle_strains_caches now p r s) as (_ & H & _). congruence.
    + cbn [step] in He. unfold sweep in He. fields.
      apply sweep_cache_Some in He as [He _]. done.
  - intros e He Hne. destruct ev; cbn beta iota in Hfr; unfold caches in Hfr;
      try (exfalso; congruence).
    + cbn [step] in He.
      destruct (settle_term_caches now p r s) as (_ & H & _). congruence.
    + cbn [step] in He.
      destruct (settle_children_caches now p r s) as (_ & H & _). congruence.
    + cbn [step] in He.
      destruct (settle_strains_caches now p r s) as (_ & _ & [H|H]);
        [congruence|].
      destruct H as (id & d & Hfl & Hr & Hc). rewrite Hc in He.
      destruct (lookup_insert_new _ _ _ _ _ He Hne) as [-> ->]. eauto 8.
    + cbn [step] in He. unfold sweep in He. fields.
      apply sweep_cache_Some in He as [He _]. done.
  - intros now p body Hfl. unfold settle_term. rewrite Hfl. cbn [ok_json_or truthy].
    split; [done|]. erewrite resolve_promises by exact Hfl.
    apply list_lookup_insert_eq. by eapply lookup_lt_Some.
  - intros now p body Hfl. unfold settle_children. rewrite Hfl.
    cbn [ok_json_or]. unfold resolve. fields. apply lookup_insert_eq.
  - intros now p body [Hfl|Hfl]; unfold settle_strains; rewrite Hfl;
      cbn [ok_json_or];
      match goal with |- context [wake ?p ?r ?s0] =>
        destruct (net_eq _ _ (wake_net p r s0)) as (_ & _ & _ & _ & _ & _ & ->)
      end; unfold resolve; fields; apply lookup_insert_eq.
Qed.

(** ** Pending entries and their promises *)

Lemma pending_classified_transition s s' :
  pending_classified s → transition s s' → pending_classified s'.
Proof.
  intros Hcl [H1 H2 _|c H0 H1 H2 _|p0 c0 r H0 H1 _ H3] k p.
  - rewrite H1, H2. apply Hcl.
  - rewrite H1, H2. destruct (decide (requestKey c = k)) as [<-|Hne].
    + rewrite lookup_insert_eq. intros [= <-].
      exists c, None. rewrite lookup_app_r by lia. rewrite Nat.sub_diag.
      split; [done|]. split; [done | by left].
    + rewrite lookup_insert_ne by done. intros Hk.
      destruct (Hcl k p Hk) as (c' & st & Hp & Hkey & Hst).
      exists c', st. rewrite lookup_app_l by (by eapply lookup_lt_Some). done.
  - rewrite H1. intros Hk.
    assert (pendingRequests s !! k = Some p
            ∧ (p = p0 → ∃ goId e, c0 = ShowChain goId ∧ r = Rejected e))
      as [Hk0 Hp0].
    { destruct r as [v|e].
      - rewrite H3 in Hk. destruct (decide (requestKey c0 = k)) as [<-|Hne].
        + by rewrite lookup_delete_eq in Hk.
        + rewrite lookup_delete_ne in Hk by done. split; [done|].
          intros ->. destruct (Hcl k p0 Hk) as (c' & st & Hp & Hkey & _).
          unfold in_flight in H0. congruence.
      - destruct c0; try done. rewrite H3 in Hk. eauto. }
    destruct (Hcl k p Hk0) as (c' & st & Hp & Hkey & Hst).
    destruct (decide (p = p0)) as [->|Hne].
    + destruct (Hp0 eq_refl) as (goId & e & -> & ->).
      unfold in_flight in H0. assert (c' = ShowChain goId) as -> by congruence.
      exists (ShowChain goId), (Some (Rejected e)).
      rewrite list_lookup_insert_eq by (by eapply lookup_lt_Some).
      split; [done|]. split; [done|]. right. by exists goId, e.
    + exists c', st. by rewrite list_lookup_insert_ne by done.
Qed.

Lemma pending_classified_reachable s : reachable s → pending_classified s.
Proof.
  apply reachable_ind.
  - intros k p. unfold init_state. cbn [pendingRequests]. by rewrite lookup_empty.
  - apply pending_classified_transition.
Qed.

Lemma key_chain_term c id : requestKey c = requestKey (TermChain id) → c = TermChain id.
Proof. destruct c; cbn; intros H; try discriminate H; by simplify_eq. Qed.

Lemma key_chain_children c id :
  requestKey c = requestKey (ChildrenChain id) → c = ChildrenChain id.
Proof. destruct c; cbn; intros H; try discriminate H; by simplify_eq. Qed.

Lemma dispatch_in_flight c s :
  in_flight (dispatch c s).2 (length (promises s)) c.
Proof.
  unfold in_flight, dispatch. fields.
  rewrite lookup_app_r by lia. by rewrite Nat.sub_diag.
Qed.

(** ** Failures at the fetcher boundary *)

Lemma fetchTerm_live now id s :
  reachable s →
  ∀ q, (fetchTerm now id s).1 = Promised q →
       in_flight (fetchTerm now id s).2 q (TermChain id).
Proof.
  intros Hs q. unfold fetchTerm. destruct (cached_fresh _ _ _); [discriminate|].
  destruct (pendingRequests s !! _) as [p|] eqn:Hp; cbn [fst snd].
  - intros [= ->].
    destruct (pending_classified_reachable s Hs _ q Hp)
      as (c & st & Hq & ->%key_chain_term & [-> | (g & e & [=] & _)]).
    exact Hq.
  - intros [= <-]. apply dispatch_in_flight.
Qed.

Lemma fetchChildren_live now id s :
  reachable s →
  ∀ q, (fetchChildren now id s).1 = Promised q →
       in_flight (fetchChildren now id s).2 q (ChildrenChain id).
Proof.
  intros Hs q. unfold fetchChildren.
  destruct (cached_fresh _ _ _); [discriminate|].
  destruct (pendingRequests s !! _) as [p|] eqn:Hp; cbn [fst snd].
  - intros [= ->].
    destruct (pending_classified_reachable s Hs _ q Hp)
      as (c & st & Hq & ->%key_chain_children & [-> | (g & e & [=] & _)]).
    exact Hq.
  - intros [= <-]. apply dispatch_in_flight.
Qed.

(** [encodeURIComponent] throws exactly on the strings that have no UTF-8
    form, and escapes the UTF-8 form of the others. *)
Lemma encodeURIComponent_utf8 units :
  match utf8 units with
  | Some id => encodeURIComponent units = Some (escape id)
  | None => encodeURIComponent units = None
  end.
Proof. unfold encodeURIComponent. by destruct (utf8 units). Qed.

(** An id with a lone surrogate never gets as far as a request: the call
    throws a [URIError] and leaves the state as it was. *)
Lemma lone_surrogate_raises now units s :
  encodeURIComponent units = None →
  fetchTerm_call now units s = (Raised "URIError", s)
  ∧ fetchChildren_call now units s = (Raised "URIError", s).
Proof.
  intros H. pose proof (encodeURIComponent_utf8 units) as Hu.
  unfold fetchTerm_call, fetchChildren_call.
  destruct (utf8 units); [congruence | done].
Qed.

(** The shortest such id: one high surrogate. *)
Lemma lone_surrogate_example :
  fetchTerm_call 0 [0xD800%N] init_state = (Raised "URIError", init_state)
  ∧ remoteCalls (fetchTerm_call 0 [0xD800%N] init_state).2 = [].
Proof. split; reflexivity. Qed.

Lemma only_show_rejects_reachable s : reachable s → only_show_rejects s.
Proof.
  apply reachable_ind.
  - intros p c e. unfold init_state. cbn [promises]. by rewrite lookup_nil.
  - intros s0 s' IH [H1 _ _|c _ H1 _ _|p c r H0 H1 _ H3] q d e; rewrite H1.
    + apply IH.
    + intros Hq. destruct (decide (q < length (promises s0))%nat).
      * rewrite lookup_app_l in Hq by done. by eapply IH.
      * rewrite lookup_app_r in Hq by lia.
        by destruct (q - length (promises s0))%nat.
    + intros Hq. destruct (decide (p = q)) as [->|Hne].
      * rewrite list_lookup_insert_eq in Hq by (by eapply lookup_lt_Some).
        injection Hq as -> ->. destruct d; try done. eauto.
      * rewrite list_lookup_insert_ne in Hq by done. by eapply IH.
Qed.

(** C7 as it is stated fails on [fetchTerm] of [src/ddb.js]: a failed
    [fetch] rejects the promise the caller holds. *)
Lemma ddb_fetchTerm_raises :
  ¬ (∀ id r s, ∃ v, (Ddb.fetchTerm id r s).1 = inr v).
Proof.
  intros H.
  destruct (H "GO:0008150" (NetworkError "Failed to fetch") Ddb.init_state)
    as [v Hv].
  vm_compute in Hv. discriminate Hv.
Qed.

(** C7, amended: in the richer variant, for every id that
    [encodeURIComponent] accepts (an id without a lone surrogate), a call of
    [fetchTerm] or [fetchChildren] does not throw, and a network, transport
    or parse failure of its request never reaches the caller: the promise
    handed out is that of the request, it fulfils with [null], respectively
    the empty list, and the error is logged; whatever the answer, no promise
    registered by these two fetchers is ever rejected, in any reachable
    state.  The simple variant catches nothing in its fetchers: on a cache
    miss the same failure rejects the promise handed to the caller. *)
Theorem fetch_failure_fallback (now : Z) (p : nat) (id : string) (s : state) :
  (in_flight s p (TermChain id) → ∀ r,
     (∃ v, promises (settle_term now p r s) !! p
           = Some {| p_chain := TermChain id;
                     p_state := Some (Fulfilled (VTerm v)) |})
     ∧ ∀ e, r = NetworkError e ∨ r = Response true (inl e) →
            promises (settle_term now p r s) !! p
            = Some {| p_chain := TermChain id;
                      p_state := Some (Fulfilled (VTerm JNull)) |}
            ∧ console (settle_term now p r s)
              = console s ++ [("Error fetching term:", e)])
  ∧ (in_flight s p (ChildrenChain id) → ∀ r,
       (∃ v, promises (settle_children now p r s) !! p
             = Some {| p_chain := ChildrenChain id;
                       p_state := Some (Fulfilled (VEdges v)) |})
       ∧ ∀ e, r = NetworkError e ∨ r = Response true (inl e) →
              promises (settle_children now p r s) !! p
              = Some {| p_chain := ChildrenChain id;
                        p_state := Some (Fulfilled (VEdges [])) |}
              ∧ console (settle_children now p r s)
                = console s ++ [("Error fetching children:", e)])
  ∧ (∀ s0 q c e,
       reachable s0 →
       promises s0 !! q = Some {| p_chain := c; p_state := Some (Rejected e) |} →
       ∃ goId, c = ShowChain goId)
  ∧ (∀ d e (r : reply json),
       Ddb.termCache d !! id = None →
       r = NetworkError e ∨ r = Response true (inl e) →
       Ddb.fetchTerm id r d = (inl e, d))
  ∧ (∀ d e (r : reply (list edge)),
       Ddb.childrenCache d !! id = None →
       r = NetworkError e ∨ r = Response true (inl e) →
       Ddb.fetchChildren id r d = (inl e, d))
  ∧ (∀ t units s0,
       reachable s0 → utf8 units = Some id →
       ∃ r, fetchTerm_call t units s0 = (Returned r, (fetchTerm t id s0).2)
            ∧ ∀ q, r = Promised q →
                   in_flight (fetchTerm t id s0).2 q (TermChain id))
  ∧ (∀ t units s0,
       reachable s0 → utf8 units = Some id →
       ∃ r, fetchChildren_call t units s0
            = (Returned r, (fetchChildren t id s0).2)
            ∧ ∀ q, r = Promised q →
                   in_flight (fetchChildren t id s0).2 q (ChildrenChain id)).
Proof.
  split; [|split; [|split; [|split; [|split; [|split]]]]].
  - intros Hfl r. pose proof (lookup_lt_Some _ _ _ Hfl) as Hlt. split.
    + unfold settle_term. rewrite Hfl. destruct (ok_json_or JNull r) as [e|d].
      * exists JNull. erewrite resolve_promises by exact Hfl.
        by apply list_lookup_insert_eq.
      * exists d. erewrite resolve_promises by (by destruct (truthy d)).
        by destruct (truthy d); apply list_lookup_insert_eq.
    + intros e [-> | ->]; unfold settle_term; rewrite Hfl; cbn [ok_json_or];
        (split; [|done]); erewrite resolve_promises by exact Hfl;
        by apply list_lookup_insert_eq.
  - intros Hfl r. pose proof (lookup_lt_Some _ _ _ Hfl) as Hlt. split.
    + unfold settle_children. rewrite Hfl. destruct (ok_json_or [] r) as [e|d].
      * exists []. erewrite resolve_promises by exact Hfl.
        by apply list_lookup_insert_eq.
      * exists d. erewrite resolve_promises by exact Hfl.
        by apply list_lookup_insert_eq.
    + intros e [-> | ->]; unfold settle_children; rewrite Hfl; cbn [ok_json_or];
        (split; [|done]); erewrite resolve_promises by exact Hfl;
        by apply list_lookup_insert_eq.
  - intros s0 q c e Hs0. by apply only_show_rejects_reachable.
  - intros d e r Hmiss [-> | ->];
      unfold Ddb.fetchTerm, Ddb.fetchTerm_start; by rewrite Hmiss.
  - intros d e r Hmiss [-> | ->];
      unfold Ddb.fetchChildren, Ddb.fetchChildren_start; by rewrite Hmiss.
  - intros t units s0 Hs0 Hid. unfold fetchTerm_call. rewrite Hid.
    pose proof (fetchTerm_live t id s0 Hs0) as Hlive.
    destruct (fetchTerm t id s0) as [r s1]. exists r. split; [done|].
    intros q ->. by apply Hlive.
  - intros t units s0 Hs0 Hid. unfold fetchChildren_call. rewrite Hid.
    pose proof (fetchChildren_live t id s0 Hs0) as Hlive.
    destruct (fetchChildren t id s0) as [r s1]. exists r. split; [done|].
    intros q ->. by apply Hlive.
Qed.

(** ** The two variants of [fetchTerm] *)

(** C10 as it is stated fails on an ok response whose body does not parse:
    the simple variant rejects, the richer one resolves to [null]. *)
Lemma variants_differ_on_unparsable_body :
  ¬ (∀ id now ok body,
      ∃ v, (Ddb.fetchTerm id (Response ok body) Ddb.init_state).1 = inr v
           ∧ promises (settle_term now 0 (Response ok body)
                         (fetchTerm now id init_state).2) !! 0%nat
             = Some {| p_chain := TermChain id;
                       p_state := Some (Fulfilled (VTerm v)) |}).
Proof.
  intros H.
  destruct (H "GO:0008150" 0 true (inl "SyntaxError")) as (v & Hv & _).
  vm_compute in Hv. discriminate Hv.
Qed.

(** C10, amended: when the remote call resolves to a response and, if the
    response is ok, its body parses, [fetchTerm] of the simple variant and
    [fetchTerm] of the richer variant, each started from empty caches, issue
    the same request and resolve to the same value, the parsed JSON when the
    response is ok and [null] otherwise, and each caches that value under
    the id exactly when it is truthy. *)
Theorem variants_agree_on_parsed_responses (id : string) (now now' : Z)
    (ok : bool) (body : error + json) (d : json) :
  (ok = true → body = inr d) →
  let r := Response ok body in
  let v := if ok then d else JNull in
  let rich := fetchTerm now id init_state in
  let rich' := settle_term now' 0 r rich.2 in
  let simple := Ddb.fetchTerm id r Ddb.init_state in
  rich.1 = Promised 0
  ∧ remoteCalls rich.2 = [GetTerm id]
  ∧ Ddb.fetchTerm_start id Ddb.init_state = Ddb.Suspended (GetTerm id)
  ∧ promises rich' !! 0%nat
    = Some {| p_chain := TermChain id; p_state := Some (Fulfilled (VTerm v)) |}
  ∧ simple.1 = inr v
  ∧ termCache rich' !! id
    = (if truthy v then Some {| data := v; timestamp := now' |} else None)
  ∧ Ddb.termCache simple.2 !! id = (if truthy v then Some v else None).
Proof.
  intros Hbody. cbv zeta.
  assert (fetchTerm now id init_state
          = (Promised 0, (dispatch (TermChain id) init_state).2)) as ->.
  { unfold fetchTerm, cached_fresh, init_state. cbn [termCache pendingRequests].
    by rewrite !lookup_empty. }
  assert (Ddb.fetchTerm_start id Ddb.init_state = Ddb.Suspended (GetTerm id)) as Hst.
  { unfold Ddb.fetchTerm_start, Ddb.init_state. cbn [Ddb.termCache].
    by rewrite lookup_empty. }
  unfold Ddb.fetchTerm. rewrite Hst. cbn [fst snd].
  do 3 (split; [done|]).
  assert (ok_json_or JNull (Response ok body) = inr (if ok then d else JNull)) as Hr.
  { destruct ok; [by rewrite Hbody | done]. }
  unfold settle_term, Ddb.fetchTerm_resume. rewrite Hr.
  unfold dispatch, init_state, Ddb.init_state. fields. cbn [app lookup list_lookup].
  destruct (truthy (if ok then d else JNull));
    unfold resolve; fields; cbn [Ddb.termCache fst snd];
    rewrite ?lookup_insert_eq, ?lookup_empty; done.
Qed.

(** ** Settlement, the pending map and the prefetch set *)

(** The hover path when nothing is cached, marked or pending for the term:
    the term is marked and one strains request is dispatched. *)
Lemma mouseenter_prefetches id s :
  strainsCache s !! id = None → id ∉ prefetchQueue s →
  pendingRequests s !! requestKey (PrefetchChain id) = None →
  id ∈ prefetchQueue (mouseenter id s)
  ∧ remoteCalls (mouseenter id s) = remoteCalls s ++ [GetStrains id]
  ∧ in_flight (mouseenter id s) (length (promises s)) (PrefetchChain id)
  ∧ pendingRequests (mouseenter id s) !! requestKey (PrefetchChain id)
    = Some (length (promises s)).
Proof.
  intros Hc Hq Hp. unfold mouseenter, prefetchStrains.
  rewrite !bool_decide_true by done. fields. rewrite Hp.
  cbn [andb]. unfold dispatch, in_flight. fields. repeat split.
  - set_solver.
  - rewrite lookup_app_r by lia. by rewrite Nat.sub_diag.
  - apply lookup_insert_eq.
Qed.

(** The chains of [fetchTerm], [fetchChildren] and [prefetchStrains] delete
    their key on every outcome; [showStrains]'s chain deletes it when a
    response came. *)
Lemma settle_clears_pending now p s :
  (∀ id r, in_flight s p (TermChain id) →
           pendingRequests (settle_term now p r s) !! requestKey (TermChain id)
           = None)
  ∧ (∀ id r, in_flight s p (ChildrenChain id) →
             pendingRequests (settle_children now p r s)
               !! requestKey (ChildrenChain id) = None)
  ∧ (∀ id r, in_flight s p (PrefetchChain id) →
             pendingRequests (settle_strains now p r s)
               !! requestKey (PrefetchChain id) = None
             ∧ id ∉ prefetchQueue (settle_strains now p r s))
  ∧ (∀ id r d, in_flight s p (ShowChain id) → ok_json_or [] r = inr d →
               pendingRequests (settle_strains now p r s)
                 !! requestKey (ShowChain id) = None).
Proof.
  split; [|split; [|split]].
  - intros id r Hfl. unfold settle_term. rewrite Hfl.
    destruct (ok_json_or JNull r) as [e|d]; [|destruct (truthy d)];
      unfold resolve; fields; apply lookup_delete_eq.
  - intros id r Hfl. unfold settle_children. rewrite Hfl.
    destruct (ok_json_or [] r) as [e|d];
      unfold resolve; fields; apply lookup_delete_eq.
  - intros id r Hfl. unfold settle_strains. rewrite Hfl.
    match goal with |- context [wake ?p ?r ?s0] =>
      destruct (net_eq _ _ (wake_net p r s0)) as (_ & -> & _ & -> & _)
    end.
    destruct (ok_json_or [] r) as [e|d]; unfold resolve; fields;
      (split; [apply lookup_delete_eq |]);
      rewrite elem_of_difference, elem_of_singleton; tauto.
  - intros id r d Hfl Hr. unfold settle_strains. rewrite Hfl, Hr.
    match goal with |- context [wake ?p ?r ?s0] =>
      destruct (net_eq _ _ (wake_net p r s0)) as (_ & -> & _)
    end.
    unfold resolve. fields. apply lookup_delete_eq.
Qed.

(** C1 fails on the interactive strains path.  [showStrains] dispatches the
    strains request of [GO:0008150]; the request fails; the rejected promise
    stays under [strains-GO:0008150]; a second [showStrains] for the term
    awaits that promise again, shows the error and issues no remote call; a
    hover does not fetch either. *)
Theorem showStrains_failure_keeps_pending :
  let s1 := showStrains 0 biological_process init_state in
  let s2 := settle_strains 10 0 (NetworkError "Failed to fetch") s1 in
  let s3 := showStrains 20 biological_process s2 in
  let s4 := mouseenter "GO:0008150" s3 in
  remoteCalls s1 = [GetStrains "GO:0008150"]
  ∧ pendingRequests s1 !! "strains-GO:0008150" = Some 0%nat
  ∧ promises s2 !! 0%nat
    = Some {| p_chain := ShowChain "GO:0008150";
              p_state := Some (Rejected "Failed to fetch") |}
  ∧ pendingRequests s2 !! "strains-GO:0008150" = Some 0%nat
  ∧ remoteCalls s3 = [GetStrains "GO:0008150"]
  ∧ strainList s3 = [Message "text-red-500" "Error loading strains."]
  ∧ pendingRequests s3 !! "strains-GO:0008150" = Some 0%nat
  ∧ remoteCalls s4 = [GetStrains "GO:0008150"].
Proof. vm_compute. repeat split. Qed.

(** C4 fails in two ways.  First, the hover test is [strainsCache.has]: a
    strain list prefetched at [t = 0] is expired at [TTL + 1] (a click
    refetches it) and not yet swept, and a hover at that time neither marks
    the term nor fetches.  Second, a hover while the strains request of
    [showStrains] is in flight marks the term and returns without fetching;
    the mark outlives the settlement of that request, and once the entry
    has expired and been swept a hover still does nothing. *)
Theorem hover_prefetch_defects :
  let id := "GO:0008150" in
  (* an expired entry counts as cached *)
  (let s1 := mouseenter id init_state in
   let s2 := settle_strains 0 0 (Response true (inr [{| mmrrc_id := "7" |}])) s1 in
   let s3 := sweep CACHE_EXPIRY s2 in
   let now := CACHE_EXPIRY + 1 in
   remoteCalls s2 = [GetStrains id]
   ∧ elements (prefetchQueue s2) = []
   ∧ strainsCache s3 !! id
     = Some {| data := [{| mmrrc_id := "7" |}]; timestamp := 0 |}
   ∧ cached_fresh (strainsCache s3) id now = None
   ∧ mouseenter id s3 = s3
   ∧ remoteCalls (showStrains now biological_process s3)
     = [GetStrains id; GetStrains id])
  (* a mark set while the interactive request is pending is never removed *)
  ∧ (let s1 := showStrains 0 biological_process init_state in
     let s2 := mouseenter id s1 in
     let s3 := settle_strains 10 0 (Response true (inr [{| mmrrc_id := "7" |}])) s2 in
     let s4 := sweep (CACHE_EXPIRY + 11) s3 in
     let s5 := mouseenter id s4 in
     elements (prefetchQueue s1) = []
     ∧ elements (prefetchQueue s2) = [id]
     ∧ remoteCalls s2 = [GetStrains id]
     ∧ promises s3 !! 1%nat = None
     ∧ pendingRequests s3 !! "strains-GO:0008150" = None
     ∧ elements (prefetchQueue s3) = [id]
     ∧ strainsCache s4 !! id = None
     ∧ elements (prefetchQueue s5) = [id]
     ∧ remoteCalls s5 = [GetStrains id]).
Proof. vm_compute. repeat split. Qed.

(** * Instances

    Each general statement above, applied to a concrete run of the page. *)

Lemma concurrent_calls_witness :
  (pendingRequests init_state !! requestKey (TermChain "GO:0008150") = None
   ∧ (∀ t, t ∈ [0; 1; 2] → cached_fresh (termCache init_state) "GO:0008150" t = None)
   ∧ ∃ p, calls (λ t, fetchTerm t "GO:0008150") [0; 1; 2] init_state
          = (replicate 3 (Promised p), (fetchTerm 0 "GO:0008150" init_state).2)
          ∧ remoteCalls (fetchTerm 0 "GO:0008150" init_state).2
            = [GetTerm "GO:0008150"])
  ∧ (pendingRequests init_state !! requestKey (ChildrenChain "GO:0008150") = None
     ∧ (∀ t, t ∈ [0; 1; 2]
             → cached_fresh (childrenCache init_state) "GO:0008150" t = None)
     ∧ ∃ p, calls (λ t, fetchChildren t "GO:0008150") [0; 1; 2] init_state
            = (replicate 3 (Promised p), (fetchChildren 0 "GO:0008150" init_state).2)
            ∧ remoteCalls (fetchChildren 0 "GO:0008150" init_state).2
              = [GetChildren "GO:0008150"])
  ∧ (reachable busy ∧ in_flight busy 2 (PrefetchChain "GO:0008150")
     ∧ ∀ q, in_flight busy q (ShowChain "GO:0008150") → 2%nat = q).
Proof.
  pose proof (concurrent_calls_share_one_request "GO:0008150" 0 [1; 2] init_state)
    as (Hterm & Hchildren & Hunique).
  split; [|split].
  - assert (pendingRequests init_state !! requestKey (TermChain "GO:0008150") = None)
      as H1 by reflexivity.
    assert (∀ t, t ∈ [0; 1; 2]
                 → cached_fresh (termCache init_state) "GO:0008150" t = None)
      as H2 by (intros t _; reflexivity).
    split; [exact H1|]. split; [exact H2|].
    destruct (Hterm H1 H2) as (p & Hc & Hr & _).
    exists p. split; [exact Hc | exact Hr].
  - assert (pendingRequests init_state !! requestKey (ChildrenChain "GO:0008150")
            = None) as H1 by reflexivity.
    assert (∀ t, t ∈ [0; 1; 2]
                 → cached_fresh (childrenCache init_state) "GO:0008150" t = None)
      as H2 by (intros t _; reflexivity).
    split; [exact H1|]. split; [exact H2|].
    destruct (Hchildren H1 H2) as (p & Hc & Hr & _).
    exists p. split; [exact Hc | exact Hr].
  - assert (reachable busy) as H1 by (eexists; reflexivity).
    assert (in_flight busy 2 (PrefetchChain "GO:0008150")) as H2 by reflexivity.
    split; [exact H1|]. split; [exact H2|].
    intros q Hq. exact (Hunique busy 2%nat q _ _ H1 H2 Hq eq_refl).
Defined.

Lemma cache_read_witness :
  (fetchTerm 5 "GO:0008150" warm).1 = Immediate (JStr "biological_process")
  ∧ (∃ e, termCache warm !! "GO:0008150" = Some e
          ∧ CACHE_EXPIRY ≤ CACHE_EXPIRY - timestamp e)
  ∧ (∃ p, (fetchTerm CACHE_EXPIRY "GO:0008150" warm).1 = Promised p)
  ∧ (∃ e, childrenCache warm !! "GO:0008150" = Some e
          ∧ CACHE_EXPIRY ≤ CACHE_EXPIRY - timestamp e)
  ∧ (∃ p, (fetchChildren CACHE_EXPIRY "GO:0008150" warm).1 = Promised p)
  ∧ (∃ e, strainsCache warm !! "GO:0008150" = Some e
          ∧ CACHE_EXPIRY ≤ CACHE_EXPIRY - timestamp e)
  ∧ showStrains CACHE_EXPIRY biological_process
      (set_strainsCache (delete "GO:0008150") warm)
    = set_strainsCache (delete "GO:0008150")
        (showStrains CACHE_EXPIRY biological_process warm).
Proof.
  pose proof (cache_read_fresh_iff 5 warm "GO:0008150" biological_process)
    as ((Hhit & _) & _).
  pose proof (cache_read_fresh_iff CACHE_EXPIRY warm "GO:0008150" biological_process)
    as ((_ & Hterm) & (_ & Hchildren) & (_ & _ & Hstrains)).
  split.
  { apply Hhit. eexists. split; [reflexivity|]. split; [reflexivity|].
    vm_compute. reflexivity. }
  assert (∃ e, termCache warm !! "GO:0008150" = Some e
               ∧ CACHE_EXPIRY ≤ CACHE_EXPIRY - timestamp e) as H1.
  { eexists. split; [reflexivity|]. vm_compute. discriminate. }
  assert (∃ e, childrenCache warm !! "GO:0008150" = Some e
               ∧ CACHE_EXPIRY ≤ CACHE_EXPIRY - timestamp e) as H2.
  { eexists. split; [reflexivity|]. vm_compute. discriminate. }
  assert (∃ e, strainsCache warm !! "GO:0008150" = Some e
               ∧ CACHE_EXPIRY ≤ CACHE_EXPIRY - timestamp e) as H3.
  { eexists. split; [reflexivity|]. vm_compute. discriminate. }
  split; [exact H1|]. split; [exact (proj2 (Hterm (or_intror H1)))|].
  split; [exact H2|]. split; [exact (proj2 (Hchildren (or_intror H2)))|].
  split; [exact H3|]. exact (Hstrains (or_intror H3)).
Defined.

Lemma cache_hit_witness :
  (termCache warm !! "GO:0008150"
   = Some {| data := JStr "biological_process"; timestamp := 0 |}
   ∧ 5 - 0 < CACHE_EXPIRY
   ∧ fetchTerm 5 "GO:0008150" warm = (Immediate (JStr "biological_process"), warm))
  ∧ (childrenCache warm !! "GO:0008150"
     = Some {| data := [{| child_go_id := "GO:0000003" |}]; timestamp := 0 |}
     ∧ fetchChildren 5 "GO:0008150" warm
       = (Immediate [{| child_go_id := "GO:0000003" |}], warm))
  ∧ (strainsCache warm !! go_id biological_process
     = Some {| data := [{| mmrrc_id := "7" |}]; timestamp := 0 |}
     ∧ strainList (showStrains 5 biological_process warm)
       = renderStrains [{| mmrrc_id := "7" |}]
     ∧ strainsCache (showStrains 5 biological_process warm) = strainsCache warm
     ∧ pendingRequests (showStrains 5 biological_process warm)
       = pendingRequests warm
     ∧ remoteCalls (showStrains 5 biological_process warm) = remoteCalls warm).
Proof.
  pose proof (cache_hit_frame 5 warm) as (Hterm & Hchildren & Hstrains).
  assert (5 - 0 < CACHE_EXPIRY) as Hfresh by (vm_compute; reflexivity).
  split; [|split].
  - split; [reflexivity|]. split; [exact Hfresh|].
    exact (Hterm "GO:0008150" _ eq_refl Hfresh).
  - split; [reflexivity|].
    exact (Hchildren "GO:0008150" _ eq_refl Hfresh).
  - split; [reflexivity|].
    destruct (Hstrains biological_process _ eq_refl Hfresh)
      as (Hl & _ & _ & Hc & Hp & _ & _ & Hr & _).
    split; [exact Hl|]. split; [exact Hc|]. split; [exact Hp | exact Hr].
Defined.

Lemma renderStrains_witness :
  (length (strains_upto 150) = 150%nat
   ∧ length (filter is_link (renderStrains (strains_upto 150))) = 100%nat
   ∧ filter is_control (renderStrains (strains_upto 150))
     = [loadMoreLi (strains_upto 150)]
   ∧ loadMore_onclick (loadMoreLi (strains_upto 150))
                      (renderStrains (strains_upto 150))
     = map strain_li (strains_upto 150))
  ∧ ((length (strains_upto 50) ≤ 100)%nat
     ∧ filter is_control (renderStrains (strains_upto 50)) = []
     ∧ filter is_link (renderStrains (strains_upto 50))
       = map strain_li (strains_upto 50)).
Proof.
  split.
  - assert (length (strains_upto 150) = 150%nat) as H by (vm_compute; reflexivity).
    split; [exact H|].
    destruct (proj1 (renderStrains_load_more (strains_upto 150)) H)
      as (_ & Hl & Hc & _ & _ & Ha & _).
    split; [exact Hl|]. split; [exact Hc | exact Ha].
  - assert (length (strains_upto 50) ≤ 100)%nat as H by (vm_compute; lia).
    split; [exact H|].
    exact (proj2 (renderStrains_load_more (strains_upto 50)) H).
Defined.

Lemma cache_entry_origin_witness :
  (* a truthy term is stored by the settlement of its request *)
  (let ev := SettleTerm 5 0 (Response true (inr (JStr "biological_process"))) in
   termCache (step ev busy) !! "GO:0008150"
   = Some {| data := JStr "biological_process"; timestamp := 5 |}
   ∧ termCache busy !! "GO:0008150"
     ≠ Some {| data := JStr "biological_process"; timestamp := 5 |}
   ∧ ∃ now p d, ev = SettleTerm now p (Response true (inr d))
                ∧ truthy d = true)
  (* a 404 for the children stores the empty list *)
  ∧ (let ev := SettleChildren 5 1 (Response false (inl "Not Found")) in
     childrenCache (step ev busy) !! "GO:0008150"
     = Some {| data := []; timestamp := 5 |}
     ∧ childrenCache busy !! "GO:0008150" ≠ Some {| data := []; timestamp := 5 |}
     ∧ ∃ now p r, ev = SettleChildren now p r
                  ∧ in_flight busy p (ChildrenChain "GO:0008150"))
  (* and so does a 404 for the strains *)
  ∧ (let ev := SettleStrains 5 2 (Response false (inl "Not Found")) in
     strainsCache (step ev busy) !! "GO:0008150"
     = Some {| data := []; timestamp := 5 |}
     ∧ strainsCache busy !! "GO:0008150" ≠ Some {| data := []; timestamp := 5 |}
     ∧ ∃ now p r, ev = SettleStrains now p r
                  ∧ (in_flight busy p (PrefetchChain "GO:0008150")
                     ∨ in_flight busy p (ShowChain "GO:0008150")))
  (* a 404 for the term stores nothing *)
  ∧ (in_flight busy 0 (TermChain "GO:0008150")
     ∧ termCache (settle_term 5 0 (Response false (inl "Not Found")) busy)
       = termCache busy)
  ∧ (in_flight busy 1 (ChildrenChain "GO:0008150")
     ∧ childrenCache (settle_children 5 1 (Response false (inl "Not Found")) busy)
         !! "GO:0008150"
       = Some {| data := []; timestamp := 5 |})
  ∧ (in_flight busy 2 (PrefetchChain "GO:0008150")
     ∧ strainsCache (settle_strains 5 2 (Response false (inl "Not Found")) busy)
         !! "GO:0008150"
       = Some {| data := []; timestamp := 5 |}).
Proof.
  split; [|split; [|split; [|split; [|split]]]]; cbv zeta.
  - assert (termCache (step (SettleTerm 5 0
                               (Response true (inr (JStr "biological_process"))))
                         busy) !! "GO:0008150"
            = Some {| data := JStr "biological_process"; timestamp := 5 |})
      as H1 by (vm_compute; reflexivity).
    assert (termCache busy !! "GO:0008150"
            ≠ Some {| data := JStr "biological_process"; timestamp := 5 |})
      as H2 by (vm_compute; discriminate).
    split; [exact H1|]. split; [exact H2|].
    destruct (proj1 (cache_entry_origin _ busy "GO:0008150") _ H1 H2)
      as (now & p & d & Hev & _ & Ht & _).
    exists now, p, d. split; [exact Hev | exact Ht].
  - assert (childrenCache (step (SettleChildren 5 1
                                   (Response false (inl "Not Found"))) busy)
              !! "GO:0008150"
            = Some {| data := []; timestamp := 5 |})
      as H1 by (vm_compute; reflexivity).
    assert (childrenCache busy !! "GO:0008150"
            ≠ Some {| data := []; timestamp := 5 |})
      as H2 by (vm_compute; discriminate).
    split; [exact H1|]. split; [exact H2|].
    destruct (proj1 (proj2 (cache_entry_origin _ busy "GO:0008150")) _ H1 H2)
      as (now & p & r & d & Hev & Hfl & _).
    exists now, p, r. split; [exact Hev | exact Hfl].
  - assert (strainsCache (step (SettleStrains 5 2
                                  (Response false (inl "Not Found"))) busy)
              !! "GO:0008150"
            = Some {| data := []; timestamp := 5 |})
      as H1 by (vm_compute; reflexivity).
    assert (strainsCache busy !! "GO:0008150"
            ≠ Some {| data := []; timestamp := 5 |})
      as H2 by (vm_compute; discriminate).
    split; [exact H1|]. split; [exact H2|].
    destruct (proj1 (proj2 (proj2 (cache_entry_origin _ busy "GO:0008150")))
                _ H1 H2)
      as (now & p & r & d & Hev & Hfl & _).
    exists now, p, r. split; [exact Hev | exact Hfl].
  - assert (in_flight busy 0 (TermChain "GO:0008150")) as H by reflexivity.
    split; [exact H|].
    pose proof (cache_entry_origin (Sweep 0) busy "GO:0008150")
      as (_ & _ & _ & Hterm & _).
    exact (proj1 (Hterm 5 0%nat (inl "Not Found") H)).
  - assert (in_flight busy 1 (ChildrenChain "GO:0008150")) as H by reflexivity.
    split; [exact H|].
    pose proof (cache_entry_origin (Sweep 0) busy "GO:0008150")
      as (_ & _ & _ & _ & Hchildren & _).
    exact (Hchildren 5 1%nat (inl "Not Found") H).
  - assert (in_flight busy 2 (PrefetchChain "GO:0008150")) as H by reflexivity.
    split; [exact H|].
    pose proof (cache_entry_origin (Sweep 0) busy "GO:0008150")
      as (_ & _ & _ & _ & _ & Hstrains).
    exact (Hstrains 5 2%nat (inl "Not Found") (or_introl H)).
Defined.

Lemma sweep_witness :
  (termCache warm !! "GO:0008150"
   = Some {| data := JStr "biological_process"; timestamp := 0 |}
   ∧ CACHE_EXPIRY - 0 ≤ CACHE_EXPIRY
   ∧ termCache (sweep CACHE_EXPIRY warm) !! "GO:0008150"
     = Some {| data := JStr "biological_process"; timestamp := 0 |})
  ∧ termCache (sweep (CACHE_EXPIRY + 1) warm) !! "GO:0008150" = None
  ∧ cached_fresh (termCache (sweep (CACHE_EXPIRY + 1) warm)) "GO:0008150"
                 (CACHE_EXPIRY + 1) = None.
Proof.
  assert (termCache warm !! "GO:0008150"
          = Some {| data := JStr "biological_process"; timestamp := 0 |})
    as H1 by reflexivity.
  assert (CACHE_EXPIRY - 0 ≤ CACHE_EXPIRY) as H2 by (vm_compute; discriminate).
  split.
  - split; [exact H1|]. split; [exact H2|].
    pose proof (sweep_removes_older_than_ttl CACHE_EXPIRY warm "GO:0008150")
      as (Hterm & _).
    exact (proj2 (Hterm _) (conj H1 H2)).
  - pose proof (sweep_removes_older_than_ttl 0 warm "GO:0008150")
      as (_ & _ & _ & Hone & _).
    exact (Hone _ H1 eq_refl).
Defined.

Lemma fetch_failure_witness :
  (in_flight busy 0 (TermChain "GO:0008150")
   ∧ promises (settle_term 5 0 (NetworkError "Failed to fetch") busy) !! 0%nat
     = Some {| p_chain := TermChain "GO:0008150";
               p_state := Some (Fulfilled (VTerm JNull)) |}
   ∧ console (settle_term 5 0 (NetworkError "Failed to fetch") busy)
     = console busy ++ [("Error fetching term:", "Failed to fetch")])
  ∧ (in_flight busy 1 (ChildrenChain "GO:0008150")
     ∧ promises (settle_children 5 1 (Response true (inl "SyntaxError")) busy)
         !! 1%nat
       = Some {| p_chain := ChildrenChain "GO:0008150";
                 p_state := Some (Fulfilled (VEdges [])) |}
     ∧ console (settle_children 5 1 (Response true (inl "SyntaxError")) busy)
       = console busy ++ [("Error fetching children:", "SyntaxError")])
  ∧ (let s0 := run [CallShowStrains 0 biological_process;
                    SettleStrains 10 0 (NetworkError "Failed to fetch")]
                   init_state in
     reachable s0
     ∧ promises s0 !! 0%nat
       = Some {| p_chain := ShowChain "GO:0008150";
                 p_state := Some (Rejected "Failed to fetch") |}
     ∧ ∃ goId, ShowChain "GO:0008150" = ShowChain goId)
  ∧ (Ddb.termCache Ddb.init_state !! "GO:0008150" = None
     ∧ Ddb.fetchTerm "GO:0008150" (NetworkError "Failed to fetch") Ddb.init_state
       = (inl "Failed to fetch", Ddb.init_state))
  ∧ (Ddb.childrenCache Ddb.init_state !! "GO:0008150" = None
     ∧ Ddb.fetchChildren "GO:0008150" (Response true (inl "SyntaxError"))
         Ddb.init_state
       = (inl "SyntaxError", Ddb.init_state))
  ∧ (let units := [0x47; 0x4F; 0x3A; 0x30; 0x30; 0x30; 0x38; 0x31; 0x35; 0x30]%N in
     reachable busy
     ∧ utf8 units = Some "GO:0008150"
     ∧ (∃ r, fetchTerm_call 5 units busy
             = (Returned r, (fetchTerm 5 "GO:0008150" busy).2)
             ∧ ∀ q, r = Promised q →
                    in_flight (fetchTerm 5 "GO:0008150" busy).2 q
                      (TermChain "GO:0008150"))
     ∧ ∃ r, fetchChildren_call 5 units busy
            = (Returned r, (fetchChildren 5 "GO:0008150" busy).2)
            ∧ ∀ q, r = Promised q →
                   in_flight (fetchChildren 5 "GO:0008150" busy).2 q
                     (ChildrenChain "GO:0008150")).
Proof.
  pose proof (fetch_failure_fallback 5 0 "GO:0008150" busy)
    as (Hterm & _ & Hrej & Hddb & Hddbc & Hcall & Hcallc).
  pose proof (fetch_failure_fallback 5 1 "GO:0008150" busy)
    as (_ & Hchildren & _).
  split; [|split; [|split; [|split; [|split]]]]; cbv zeta.
  - assert (in_flight busy 0 (TermChain "GO:0008150")) as H by reflexivity.
    split; [exact H|].
    exact (proj2 (Hterm H (NetworkError "Failed to fetch")) _ (or_introl eq_refl)).
  - assert (in_flight busy 1 (ChildrenChain "GO:0008150")) as H by reflexivity.
    split; [exact H|].
    exact (proj2 (Hchildren H (Response true (inl "SyntaxError"))) _
             (or_intror eq_refl)).
  - assert (reachable
              (run [CallShowStrains 0 biological_process;
                    SettleStrains 10 0 (NetworkError "Failed to fetch")]
                 init_state)) as H1 by (eexists; reflexivity).
    assert (promises
              (run [CallShowStrains 0 biological_process;
                    SettleStrains 10 0 (NetworkError "Failed to fetch")]
                 init_state) !! 0%nat
            = Some {| p_chain := ShowChain "GO:0008150";
                      p_state := Some (Rejected "Failed to fetch") |})
      as H2 by (vm_compute; reflexivity).
    split; [exact H1|]. split; [exact H2|].
    exact (Hrej _ _ _ _ H1 H2).
  - assert (Ddb.termCache Ddb.init_state !! "GO:0008150" = None) as H
        by reflexivity.
    split; [exact H|].
    exact (Hddb Ddb.init_state _ (NetworkError "Failed to fetch") H
             (or_introl eq_refl)).
  - assert (Ddb.childrenCache Ddb.init_state !! "GO:0008150" = None) as H
        by reflexivity.
    split; [exact H|].
    exact (Hddbc Ddb.init_state _ (Response true (inl "SyntaxError")) H
             (or_intror eq_refl)).
  - assert (reachable busy) as H1 by (eexists; reflexivity).
    assert (utf8 [0x47; 0x4F; 0x3A; 0x30; 0x30; 0x30; 0x38; 0x31; 0x35; 0x30]%N
            = Some "GO:0008150") as H2 by reflexivity.
    split; [exact H1|]. split; [exact H2|].
    split; [exact (Hcall 5 _ busy H1 H2) | exact (Hcallc 5 _ busy H1 H2)].
Defined.

Lemma variants_agree_witness :
  let node := JObj [("go_id", JStr "GO:0008150");
                    ("name", JStr "biological_process")] in
  (true = true → inr node = (inr node : error + json))
  ∧ promises (settle_term 5 0 (Response true (inr node))
                (fetchTerm 0 "GO:0008150" init_state).2) !! 0%nat
    = Some {| p_chain := TermChain "GO:0008150";
              p_state := Some (Fulfilled (VTerm node)) |}
  ∧ (Ddb.fetchTerm "GO:0008150" (Response true (inr node)) Ddb.init_state).1
    = inr node.
Proof.
  cbv zeta.
  assert (true = true
          → inr (JObj [("go_id", JStr "GO:0008150");
                       ("name", JStr "biological_process")])
            = (inr (JObj [("go_id", JStr "GO:0008150");
                          ("name", JStr "biological_process")]) : error + json))
    as H by (intros _; reflexivity).
  split; [exact H|].
  destruct (variants_agree_on_parsed_responses "GO:0008150" 0 5 true _ _ H)
    as (_ & _ & _ & Hrich & Hsimple & _).
  split; [exact Hrich | exact Hsimple].
Defined.

(** * Further properties of the data layer *)

(** ** Request keys and URLs *)

Lemma append_cons (a : ascii) (x y : string) :
  String a x +:+ y = String a (x +:+ y).
Proof. reflexivity. Qed.

Lemma append_nil (y : string) : "" +:+ y = y.
Proof. reflexivity. Qed.

Lemma append_assoc (a b c : string) : (a +:+ b) +:+ c = a +:+ (b +:+ c).
Proof.
  induction a as [|x a IH]; [done|]. rewrite !append_cons. by f_equal.
Qed.

Lemma has_slash_append (x y : string) :
  has_slash (x +:+ y) = has_slash x || has_slash y.
Proof.
  induction x as [|a x IH]; [done|]. rewrite append_cons. cbn [has_slash].
  rewrite IH. by rewrite orb_assoc.
Qed.

Lemma escape_octet_slash (a : ascii) : has_slash (escape_octet a) = false.
Proof. destruct a as [[] [] [] [] [] [] [] []]; reflexivity. Qed.

Lemma escape_slash (s : string) : has_slash (escape s) = false.
Proof.
  induction s as [|a s IH]; [done|]. cbn [escape].
  by rewrite has_slash_append, escape_octet_slash, IH.
Qed.

(** Two strings cut at their first slash. *)
Lemma first_slash (x x' y y' : string) :
  has_slash x = false → has_slash x' = false →
  x +:+ String "/" y = x' +:+ String "/" y' → x = x' ∧ y = y'.
Proof.
  revert x'. induction x as [|a x IH]; intros [|a' x'];
    rewrite ?append_cons, ?append_nil.
  - by intros _ _ [= ->].
  - intros _ H [= <- _]. discriminate H.
  - intros H _ [= -> _]. discriminate H.
  - intros H H' [= <- Heq]. cbn [has_slash] in H, H'.
    apply orb_false_elim in H as [_ H]. apply orb_false_elim in H' as [_ H'].
    by destruct (IH _ H H' Heq) as [-> ->].
Qed.

Lemma hex_digit_inj a3 a2 a1 a0 b3 b2 b1 b0 :
  hex_digit a3 a2 a1 a0 = hex_digit b3 b2 b1 b0 →
  a3 = b3 ∧ a2 = b2 ∧ a1 = b1 ∧ a0 = b0.
Proof.
  destruct a3, a2, a1, a0, b3, b2, b1, b0; intros H; try done;
    vm_compute in H; discriminate H.
Qed.

(** The escapes of the octets form a prefix code. *)
Lemma escape_octet_inj (a b : ascii) (x y : string) :
  escape_octet a +:+ x = escape_octet b +:+ y → a = b ∧ x = y.
Proof.
  unfold escape_octet.
  destruct (unreserved a) eqn:Ha, (unreserved b) eqn:Hb.
  - rewrite !append_cons, !append_nil. by intros [= -> ->].
  - destruct b as [b0 b1 b2 b3 b4 b5 b6 b7].
    rewrite !append_cons, !append_nil. intros [= -> _]. discriminate Ha.
  - destruct a as [a0 a1 a2 a3 a4 a5 a6 a7].
    rewrite !append_cons, !append_nil. intros [= <- _]. discriminate Hb.
  - destruct a as [a0 a1 a2 a3 a4 a5 a6 a7], b as [b0 b1 b2 b3 b4 b5 b6 b7].
    rewrite !append_cons, !append_nil. intros [= Hhi Hlo ->].
    apply hex_digit_inj in Hhi as (-> & -> & -> & ->).
    by apply hex_digit_inj in Hlo as (-> & -> & -> & ->).
Qed.

Lemma escape_octet_cons (a : ascii) : ∃ b t, escape_octet a = String b t.
Proof.
  unfold escape_octet. destruct (unreserved a); [by eexists _, _|].
  destruct a. by eexists _, _.
Qed.

Lemma escape_inj (x y : string) : escape x = escape y → x = y.
Proof.
  revert y. induction x as [|a x IH]; intros [|b y]; cbn [escape].
  - done.
  - destruct (escape_octet_cons b) as (c & t & ->). by rewrite append_cons.
  - destruct (escape_octet_cons a) as (c & t & ->). by rewrite append_cons.
  - intros H. apply escape_octet_inj in H as [-> H]. by rewrite (IH _ H).
Qed.

Lemma has_slash_cut (x y : string) : has_slash (x +:+ String "/" y) = true.
Proof. rewrite has_slash_append. cbn [has_slash]. apply orb_true_r. Qed.

(** Every URL is [apiUrl], [/go/] and one or two segments. *)
Lemma urlString_segments (c : chain) :
  urlString c
  = (apiUrl +:+ "/go/")
    +:+ match c with
        | TermChain id => escape id
        | ChildrenChain id => "children" +:+ String "/" (escape id)
        | PrefetchChain goId | ShowChain goId =>
            escape goId +:+ String "/" "mmrrc-strains"
        end.
Proof. by destruct c. Qed.

(** X1: the key in [pendingRequests] determines the path template and the
    id of a request, and with them the URL; two requests for one URL have
    one key, but for the children of [mmrrc-strains] and the strains of
    [children], which are fetched from the same URL under two keys. *)
Theorem requestKey_urlString (c1 c2 : chain) :
  (requestKey c1 = requestKey c2 ↔ url c1 = url c2)
  ∧ (requestKey c1 = requestKey c2 → urlString c1 = urlString c2)
  ∧ (urlString c1 = urlString c2 →
     requestKey c1 = requestKey c2
     ∨ (url c1 = GetChildren "mmrrc-strains" ∧ url c2 = GetStrains "children")
     ∨ (url c1 = GetStrains "children" ∧ url c2 = GetChildren "mmrrc-strains"))
  ∧ urlString (ChildrenChain "mmrrc-strains") = urlString (ShowChain "children")
  ∧ requestKey (ChildrenChain "mmrrc-strains") ≠ requestKey (ShowChain "children").
Proof.
  split; [|split; [|split; [|split; [reflexivity | discriminate]]]].
  - split; destruct c1, c2; cbn; intros H; try discriminate H; by simplify_eq.
  - destruct c1, c2; cbn; intros H; try discriminate H; by simplify_eq.
  - rewrite !urlString_segments. intros H%(inj _).
    assert (∀ a x y, escape a ≠ x +:+ String "/" y) as Hseg.
    { intros a x y Ha%(f_equal has_slash).
      by rewrite escape_slash, has_slash_cut in Ha. }
    assert (∀ a, has_slash (escape a) = false) as He by apply escape_slash.
    destruct c1 as [a|a|a|a], c2 as [b|b|b|b];
      try (by apply Hseg in H); try (symmetry in H; by apply Hseg in H);
      try (apply escape_inj in H as ->; by left);
      try (apply first_slash in H as [H1 H2]; [|done..]).
    all: try (apply escape_inj in H2 as ->; by left).
    all: try (apply escape_inj in H1 as ->; by left).
    all: try (apply (escape_inj _ "mmrrc-strains") in H2 as ->;
              symmetry in H1; apply (escape_inj _ "children") in H1 as ->;
              right; by left).
    all: try (apply (escape_inj _ "children") in H1 as ->;
              symmetry in H2; apply (escape_inj _ "mmrrc-strains") in H2 as ->;
              right; by right).
Qed.

(** ** Invariants of the promise heap *)

(** X2: in every reachable state each entry of [pendingRequests] names a
    promise that exists and was built for that very key; that promise is
    still in flight, the one exception being a promise of [showStrains] that
    rejected. *)
Theorem pending_entries_classified (s : state) (k : string) (p : nat) :
  reachable s → pendingRequests s !! k = Some p →
  ∃ c st, promises s !! p = Some {| p_chain := c; p_state := st |}
          ∧ requestKey c = k
          ∧ (st = None ∨ ∃ goId e, c = ShowChain goId ∧ st = Some (Rejected e)).
Proof. intros Hs. by apply pending_classified_reachable. Qed.

(** X3: in every reachable state the log of remote calls lists, in order,
    the URL of each promise of the heap: every remote call has its promise,
    every promise made exactly one remote call, and settling issues none. *)
Theorem remote_calls_match_promises (s : state) :
  reachable s → remoteCalls s = map (λ pr, url (p_chain pr)) (promises s).
Proof.
  revert s. apply reachable_ind; [done|].
  intros s s' IH [H1 _ H3|c _ H1 _ H3|p c r H0 H1 H3 _]; rewrite H1, H3, IH.
  - done.
  - by rewrite map_app.
  - rewrite list_fmap_insert. cbn [p_chain].
    symmetry. apply list_insert_id. rewrite list_lookup_fmap.
    unfold in_flight in H0. by rewrite H0.
Qed.

(** X4: a promise keeps its handle and its chain through every event, and
    once settled it keeps its outcome: an answer of the browser for a promise
    that is settled already changes nothing of it. *)
Theorem settled_is_final (ev : event) (s : state) (p : nat) (c : chain)
    (st : option settled) :
  promises s !! p = Some {| p_chain := c; p_state := st |} →
  (∃ st', promises (step ev s) !! p = Some {| p_chain := c; p_state := st' |})
  ∧ (∀ r, st = Some r →
          promises (step ev s) !! p = Some {| p_chain := c; p_state := Some r |}).
Proof.
  intros Hp.
  destruct (step_transition ev s) as [H1 _ _|c' _ H1 _ _|p0 c0 r0 H0 H1 _ _];
    rewrite H1.
  - eauto with congruence.
  - rewrite lookup_app_l by (by eapply lookup_lt_Some). eauto with congruence.
  - destruct (decide (p = p0)) as [->|Hne].
    + unfold in_flight in H0. assert (c0 = c ∧ st = None) as [-> ->].
      { split; congruence. }
      rewrite list_lookup_insert_eq by (by eapply lookup_lt_Some).
      split; [eauto | done].
    + rewrite list_lookup_insert_ne by done. eauto with congruence.
Qed.

(** X5: a promise handed out by [fetchTerm(id)] in a reachable state is a
    request for that very term and is still in flight, be it new or taken
    from [pendingRequests]; the same holds of [fetchChildren].  Neither ever
    returns a settled promise or a promise of another fetcher. *)
Theorem fetcher_promise_is_live (now : Z) (id : string) (s : state) (p : nat) :
  reachable s →
  ((fetchTerm now id s).1 = Promised p →
   in_flight (fetchTerm now id s).2 p (TermChain id))
  ∧ ((fetchChildren now id s).1 = Promised p →
     in_flight (fetchChildren now id s).2 p (ChildrenChain id)).
Proof.
  intros Hs. split.
  - unfold fetchTerm. destruct (cached_fresh _ _ _); [discriminate|].
    destruct (pendingRequests s !! _) as [q|] eqn:Hq; cbn [fst snd].
    + intros [= ->].
      destruct (pending_classified_reachable s Hs _ p Hq)
        as (c & st & Hp & ->%key_chain_term & [-> | (g & e & [=] & _)]).
      exact Hp.
    + intros [= <-]. apply dispatch_in_flight.
  - unfold fetchChildren. destruct (cached_fresh _ _ _); [discriminate|].
    destruct (pendingRequests s !! _) as [q|] eqn:Hq; cbn [fst snd].
    + intros [= ->].
      destruct (pending_classified_reachable s Hs _ p Hq)
        as (c & st & Hp & ->%key_chain_children & [-> | (g & e & [=] & _)]).
      exact Hp.
    + intros [= <-]. apply dispatch_in_flight.
Qed.

(** ** Fetch, settle, fetch again *)

(** X6: what a settlement stores is served from the cache until it expires.
    After an ok answer with a truthy term stored at [now], [fetchTerm] at any
    [now'] with [now' - now < TTL] returns that term at once and changes
    nothing; after any answer that is a response, [fetchChildren] returns the
    stored list (the parsed one, or the empty list of a non-ok response) at
    once and changes nothing.  An entry that was there before is replaced. *)
Theorem settle_then_fetch_hits (now now' : Z) (p : nat) (id : string) (s : state) :
  now' - now < CACHE_EXPIRY →
  (∀ r d, in_flight s p (TermChain id) →
          ok_json_or JNull r = inr d → truthy d = true →
          fetchTerm now' id (settle_term now p r s)
          = (Immediate d, settle_term now p r s))
  ∧ (∀ r d, in_flight s p (ChildrenChain id) →
            ok_json_or [] r = inr d →
            fetchChildren now' id (settle_children now p r s)
            = (Immediate d, settle_children now p r s)).
Proof.
  intros Hfresh. split.
  - intros r d Hfl Hr Ht. unfold fetchTerm.
    assert (cached_fresh (termCache (settle_term now p r s)) id now' = Some d)
      as ->; [|done].
    apply cached_fresh_Some. exists {| data := d; timestamp := now |}.
    split; [|done]. unfold settle_term. rewrite Hfl, Hr, Ht.
    unfold resolve. fields. apply lookup_insert_eq.
  - intros r d Hfl Hr. unfold fetchChildren.
    assert (cached_fresh (childrenCache (settle_children now p r s)) id now'
            = Some d) as ->; [|done].
    apply cached_fresh_Some. exists {| data := d; timestamp := now |}.
    split; [|done]. unfold settle_children. rewrite Hfl, Hr.
    unfold resolve. fields. apply lookup_insert_eq.
Qed.

Lemma fetchTerm_miss now id s :
  cached_fresh (termCache s) id now = None →
  pendingRequests s !! requestKey (TermChain id) = None →
  fetchTerm now id s
  = (Promised (length (promises s)), (dispatch (TermChain id) s).2).
Proof. intros H1 H2. unfold fetchTerm. by rewrite H1, H2. Qed.

Lemma fetchChildren_miss now id s :
  cached_fresh (childrenCache s) id now = None →
  pendingRequests s !! requestKey (ChildrenChain id) = None →
  fetchChildren now id s
  = (Promised (length (promises s)), (dispatch (ChildrenChain id) s).2).
Proof. intros H1 H2. unfold fetchChildren. by rewrite H1, H2. Qed.

(** The state after the term request of [p] settled. *)
Lemma settle_term_fields now p r id s :
  in_flight s p (TermChain id) →
  let s1 := settle_term now p r s in
  pendingRequests s1 = delete (requestKey (TermChain id)) (pendingRequests s)
  ∧ remoteCalls s1 = remoteCalls s
  ∧ length (promises s1) = length (promises s)
  ∧ termCache s1
    = match ok_json_or JNull r with
      | inr d => if truthy d
                 then <[id := {| data := d; timestamp := now |}]> (termCache s)
                 else termCache s
      | inl _ => termCache s
      end.
Proof.
  intros Hfl. cbv zeta. unfold settle_term. rewrite Hfl.
  destruct (ok_json_or JNull r) as [e|d]; [|destruct (truthy d)];
    (erewrite resolve_promises by (fields; exact Hfl));
    rewrite length_insert; done.
Qed.

Lemma settle_children_fields now p r id s :
  in_flight s p (ChildrenChain id) →
  let s1 := settle_children now p r s in
  pendingRequests s1 = delete (requestKey (ChildrenChain id)) (pendingRequests s)
  ∧ remoteCalls s1 = remoteCalls s
  ∧ length (promises s1) = length (promises s)
  ∧ childrenCache s1
    = match ok_json_or [] r with
      | inr d => <[id := {| data := d; timestamp := now |}]> (childrenCache s)
      | inl _ => childrenCache s
      end.
Proof.
  intros Hfl. cbv zeta. unfold settle_children. rewrite Hfl.
  destruct (ok_json_or [] r) as [e|d];
    (erewrite resolve_promises by (fields; exact Hfl));
    rewrite length_insert; done.
Qed.

(** X7: nothing is cached for a term whose request failed, was answered
    not-ok or was answered with a falsy value, nor for children whose request
    failed: when no fresh entry was there, the next call for the id
    dispatches a new request, under a new promise, and that is its only
    remote call. *)
Theorem settle_without_entry_then_fetch_retries (now now' : Z) (p : nat)
    (id : string) (s : state) :
  (∀ r, in_flight s p (TermChain id) →
        cached_fresh (termCache s) id now' = None →
        (match ok_json_or JNull r with
         | inl _ => True
         | inr d => truthy d = false
         end) →
        let s1 := settle_term now p r s in
        let q := length (promises s) in
        (fetchTerm now' id s1).1 = Promised q ∧ q ≠ p
        ∧ in_flight (fetchTerm now' id s1).2 q (TermChain id)
        ∧ remoteCalls (fetchTerm now' id s1).2 = remoteCalls s ++ [GetTerm id])
  ∧ (∀ r e, in_flight s p (ChildrenChain id) →
            cached_fresh (childrenCache s) id now' = None →
            ok_json_or [] r = inl e →
            let s1 := settle_children now p r s in
            let q := length (promises s) in
            (fetchChildren now' id s1).1 = Promised q ∧ q ≠ p
            ∧ in_flight (fetchChildren now' id s1).2 q (ChildrenChain id)
            ∧ remoteCalls (fetchChildren now' id s1).2
              = remoteCalls s ++ [GetChildren id]).
Proof.
  split.
  - intros r Hfl Hmiss Hr. cbv zeta.
    pose proof (lookup_lt_Some _ _ _ Hfl) as Hlt.
    destruct (settle_term_fields now p r id s Hfl) as (Hp & Hc & Hl & Hm).
    rewrite fetchTerm_miss.
    + cbn [fst snd]. rewrite Hl. split; [done|]. split; [lia|]. split.
      * rewrite <- Hl. apply dispatch_in_flight.
      * unfold dispatch. fields. by rewrite Hc.
    + rewrite Hm. destruct (ok_json_or JNull r) as [e|d]; [done|].
      by rewrite Hr.
    + rewrite Hp. apply lookup_delete_eq.
  - intros r e Hfl Hmiss Hr. cbv zeta.
    pose proof (lookup_lt_Some _ _ _ Hfl) as Hlt.
    destruct (settle_children_fields now p r id s Hfl) as (Hp & Hc & Hl & Hm).
    rewrite fetchChildren_miss.
    + cbn [fst snd]. rewrite Hl. split; [done|]. split; [lia|]. split.
      * rewrite <- Hl. apply dispatch_in_flight.
      * unfold dispatch. fields. by rewrite Hc.
    + rewrite Hm. by rewrite Hr.
    + rewrite Hp. apply lookup_delete_eq.
Qed.

(** ** More on the sweep *)




(** ** [showStrains] and the hover prefetch *)

Lemma wake_last p w s :
  awaiting s = w ++ [(p, true)] →
  strainList (wake p (Fulfilled VUndefined) s) = renderStrains [].
Proof.
  intros Hw. unfold wake. rewrite Hw, foldl_app. cbn [foldl fst snd].
  by rewrite decide_True by done.
Qed.

Lemma showStrains_hit now t s e :
  strainsCache s !! go_id t = Some e → now - timestamp e < CACHE_EXPIRY →
  strainList (showStrains now t s) = renderStrains (data e)
  ∧ remoteCalls (showStrains now t s) = remoteCalls s.
Proof.
  intros He Hfresh. unfold showStrains. fields.
  assert (cached_fresh (strainsCache s) (go_id t) now = Some (data e)) as ->.
  { apply cached_fresh_Some. eauto. }
  done.
Qed.

(** [showStrains] on a miss, with the prefetch of the term registered and in
    flight: the call suspends on that promise. *)
Lemma showStrains_joins now t p s :
  in_flight s p (PrefetchChain (go_id t)) →
  pendingRequests s !! requestKey (PrefetchChain (go_id t)) = Some p →
  cached_fresh (strainsCache s) (go_id t) now = None →
  showStrains now t s
  = set_awaiting (λ l, l ++ [(p, true)])
      (set_strainList (λ _, [Message "text-gray-500" "Loading strains..."])
         (set_label (name t +:+ " (" +:+ go_id t +:+ ")") s)).
Proof.
  intros Hfl Hp Hmiss. unfold showStrains. fields. rewrite Hmiss.
  change (requestKey (ShowChain (go_id t)))
    with (requestKey (PrefetchChain (go_id t))).
  rewrite Hp. unfold await. fields. by rewrite Hfl.
Qed.

(** X9: a [showStrains] that finds the hover prefetch of its term in flight
    waits for it and then shows "No strains linked to this term.", whatever
    the browser answers: the promise of [prefetchStrains] fulfils with
    [undefined], on success and on failure alike, and [showStrains] renders
    [strains || []].  The strains that arrived are in the cache all the
    same, and the next [showStrains] within the TTL shows them. *)
Theorem showStrains_on_prefetch_shows_none (now now' now'' : Z) (p : nat)
    (t : term) (r : reply (list strain)) (s : state) :
  in_flight s p (PrefetchChain (go_id t)) →
  pendingRequests s !! requestKey (PrefetchChain (go_id t)) = Some p →
  cached_fresh (strainsCache s) (go_id t) now = None →
  let s1 := showStrains now t s in
  let s2 := settle_strains now' p r s1 in
  remoteCalls s2 = remoteCalls s
  ∧ strainList s2 = [Message "text-gray-500" "No strains linked to this term."]
  ∧ (∀ d, ok_json_or [] r = inr d → now'' - now' < CACHE_EXPIRY →
          strainsCache s2 !! go_id t = Some {| data := d; timestamp := now' |}
          ∧ strainList (showStrains now'' t s2) = renderStrains d
          ∧ remoteCalls (showStrains now'' t s2) = remoteCalls s).
Proof.
  intros Hfl Hp Hmiss. cbv zeta. rewrite (showStrains_joins now t p s) by done.
  match goal with |- context [settle_strains now' p r ?s0] =>
    set (s1 := s0); set (s2 := settle_strains now' p r s1)
  end.
  assert (remoteCalls s2 = remoteCalls s
          ∧ strainList s2 = renderStrains []
          ∧ strainsCache s2
            = match ok_json_or [] r with
              | inr d => <[go_id t := {| data := d; timestamp := now' |}]>
                           (strainsCache s)
              | inl _ => strainsCache s
              end) as (Hcalls & Hlist & Hcache).
  { subst s2 s1. unfold settle_strains. fields. rewrite Hfl. cbv beta iota.
    destruct (ok_json_or [] r) as [e|d0];
      match goal with |- context [wake p ?r0 ?s0] =>
        pose proof (net_eq _ _ (wake_net p r0 s0))
          as (_ & _ & Hc & _ & _ & _ & Hm);
        pose proof (wake_last p (awaiting s) s0 eq_refl) as Hl
      end; rewrite Hc, Hm, Hl; done. }
  split; [exact Hcalls|]. split; [exact Hlist|].
  intros d Hr Hfresh. rewrite Hr in Hcache.
  assert (strainsCache s2 !! go_id t = Some {| data := d; timestamp := now' |})
    as Hentry by (rewrite Hcache; apply lookup_insert_eq).
  split; [exact Hentry|].
  destruct (showStrains_hit now'' t s2 _ Hentry Hfresh) as [H1 H2].
  split; [exact H1|]. by rewrite H2.
Qed.

(** X10: the hover prefetch does what it is for.  A hover on a term with no
    strains entry, no mark and no pending strains request issues one request;
    once a response has come (ok or not), the mark is gone and a click within
    the TTL shows the stored strains at once: the prefetch remains the only
    remote call. *)
Theorem hover_then_click_is_instant (now now' : Z) (t : term)
    (r : reply (list strain)) (d : list strain) (s : state) :
  strainsCache s !! go_id t = None →
  go_id t ∉ prefetchQueue s →
  pendingRequests s !! requestKey (PrefetchChain (go_id t)) = None →
  ok_json_or [] r = inr d →
  now' - now < CACHE_EXPIRY →
  let s1 := mouseenter (go_id t) s in
  let s2 := settle_strains now (length (promises s)) r s1 in
  let s3 := showStrains now' t s2 in
  remoteCalls s1 = remoteCalls s ++ [GetStrains (go_id t)]
  ∧ (go_id t ∉ prefetchQueue s2)
  ∧ pendingRequests s2 !! requestKey (PrefetchChain (go_id t)) = None
  ∧ strainList s3 = renderStrains d
  ∧ remoteCalls s3 = remoteCalls s ++ [GetStrains (go_id t)].
Proof.
  intros Hc Hq Hp Hr Hfresh. cbv zeta.
  destruct (mouseenter_prefetches (go_id t) s Hc Hq Hp) as (_ & Hcalls & Hfl & _).
  split; [exact Hcalls|].
  destruct (settle_clears_pending now (length (promises s)) (mouseenter (go_id t) s))
    as (_ & _ & Hclear & _).
  destruct (Hclear _ r Hfl) as [Hgone Hunmarked].
  split; [exact Hunmarked|]. split; [exact Hgone|].
  assert (strainsCache (settle_strains now (length (promises s)) r
                          (mouseenter (go_id t) s)) !! go_id t
          = Some {| data := d; timestamp := now |}
          ∧ remoteCalls (settle_strains now (length (promises s)) r
                           (mouseenter (go_id t) s))
            = remoteCalls s ++ [GetStrains (go_id t)]) as [Hentry Hcalls2].
  { unfold settle_strains. rewrite Hfl, Hr.
    match goal with |- context [wake ?p ?r0 ?s0] =>
      destruct (net_eq _ _ (wake_net p r0 s0)) as (_ & _ & -> & _ & _ & _ & ->)
    end.
    unfold resolve. fields. split; [apply lookup_insert_eq | exact Hcalls]. }
  unfold showStrains. fields.
  match goal with |- context [cached_fresh ?m ?k ?n] =>
    assert (cached_fresh m k n = Some d) as ->
  end.
  { apply cached_fresh_Some. eexists. split; [exact Hentry|]. done. }
  fields. done.
Qed.

(** ** The two renderers *)

(** X11: the renderer of the richer variant shows what the renderer of
    [src/ddb.js] shows: at once when there are at most 100 strains, and after
    the one click on the load-more control when there are more. *)
Theorem renderers_agree (strains : list strain) :
  ((length strains ≤ INITIAL_RENDER_COUNT)%nat →
   renderStrains strains = DdbPage.renderStrains strains)
  ∧ ((INITIAL_RENDER_COUNT < length strains)%nat →
     loadMore_onclick (loadMoreLi strains) (renderStrains strains)
     = DdbPage.renderStrains strains).
Proof.
  split; intros Hlen.
  - unfold DdbPage.renderStrains. case_decide as H0.
    + unfold renderStrains. by rewrite decide_True.
    + apply renderStrains_few. lia.
  - unfold DdbPage.renderStrains.
    rewrite decide_False by (unfold INITIAL_RENDER_COUNT in *; lia).
    by apply renderStrains_more.
Qed.

(** ** The simple variant never forgets *)

(** X12: the caches of [src/ddb.js] have no expiry.  Once [fetchTerm]
    stored a truthy term, or [fetchChildren] a list (the empty list of a
    non-ok response included), every later call returns the stored value
    without asking the browser, whatever the browser would answer.
    [showStrains] stores and shows the list of any response and shows it
    again from the cache; after a failure it stores nothing, shows and logs
    the error, and the next call asks again. *)
Theorem ddb_cache_is_permanent (id : string) (t : term) (s : Ddb.state)
    (pg : DdbPage.page) :
  (∀ r d r', Ddb.termCache s !! id = None →
             ok_json_or JNull r = inr d → truthy d = true →
             let s1 := (Ddb.fetchTerm id r s).2 in
             Ddb.fetchTerm_start id s1 = Ddb.Hit d
             ∧ Ddb.fetchTerm id r' s1 = (inr d, s1))
  ∧ (∀ r d r', Ddb.childrenCache s !! id = None →
               ok_json_or [] r = inr d →
               let s1 := (Ddb.fetchChildren id r s).2 in
               Ddb.fetchChildren_start id s1 = Ddb.Hit d
               ∧ Ddb.fetchChildren id r' s1 = (inr d, s1))
  ∧ (∀ r d, ok_json_or [] r = inr d →
            let '(s1, pg1) := DdbPage.showStrains_resume t r s pg in
            DdbPage.strainList pg1 = DdbPage.renderStrains d
            ∧ DdbPage.console pg1 = DdbPage.console pg
            ∧ (DdbPage.showStrains_start t s1 pg1).1 = Ddb.Hit ()
            ∧ DdbPage.strainList (DdbPage.showStrains_start t s1 pg1).2
              = DdbPage.renderStrains d)
  ∧ (∀ r e, Ddb.strainsCache s !! go_id t = None →
            ok_json_or [] r = inl e →
            let '(s1, pg1) := DdbPage.showStrains_resume t r s pg in
            s1 = s
            ∧ DdbPage.strainList pg1 = [Message "text-red-500" "Error loading strains."]
            ∧ DdbPage.console pg1
              = DdbPage.console pg ++ [("Error fetching strains:", e)]
            ∧ (DdbPage.showStrains_start t s1 pg1).1
              = Ddb.Suspended (GetStrains (go_id t))).
Proof.
  split; [|split; [|split]].
  - intros r d r' Hmiss Hr Ht. cbv zeta.
    assert (Ddb.fetchTerm id r s
            = (inr d, {| Ddb.termCache := <[id := d]> (Ddb.termCache s);
                         Ddb.childrenCache := Ddb.childrenCache s;
                         Ddb.strainsCache := Ddb.strainsCache s |})) as ->.
    { unfold Ddb.fetchTerm, Ddb.fetchTerm_start, Ddb.fetchTerm_resume.
      by rewrite Hmiss, Hr, Ht. }
    cbn [snd]. unfold Ddb.fetchTerm, Ddb.fetchTerm_start. cbn [Ddb.termCache].
    by rewrite lookup_insert_eq.
  - intros r d r' Hmiss Hr. cbv zeta.
    assert (Ddb.fetchChildren id r s
            = (inr d, {| Ddb.termCache := Ddb.termCache s;
                         Ddb.childrenCache := <[id := d]> (Ddb.childrenCache s);
                         Ddb.strainsCache := Ddb.strainsCache s |})) as ->.
    { unfold Ddb.fetchChildren, Ddb.fetchChildren_start, Ddb.fetchChildren_resume.
      by rewrite Hmiss, Hr. }
    cbn [snd]. unfold Ddb.fetchChildren, Ddb.fetchChildren_start.
    cbn [Ddb.childrenCache]. by rewrite lookup_insert_eq.
  - intros r d Hr. unfold DdbPage.showStrains_resume. rewrite Hr.
    unfold DdbPage.showStrains_start. cbn [Ddb.strainsCache].
    by rewrite lookup_insert_eq.
  - intros r e Hmiss Hr. unfold DdbPage.showStrains_resume. rewrite Hr.
    unfold DdbPage.showStrains_start. by rewrite Hmiss.
Qed.

(** ** The bound of the renderer *)

(** X13: whatever the number of strains, [renderStrains] puts at most 101
    children in the list: the links of the first 100 strains, in order, and
    at most one control, which is there exactly when more than 100 strains
    were given (with no strain at all, the one message). *)
Theorem renderStrains_bounded (strains : list strain) :
  (length (renderStrains strains) ≤ INITIAL_RENDER_COUNT + 1)%nat
  ∧ filter is_link (renderStrains strains)
    = map strain_li (take INITIAL_RENDER_COUNT strains)
  ∧ filter is_control (renderStrains strains)
    = (if decide (INITIAL_RENDER_COUNT < length strains)%nat
       then [loadMoreLi strains] else []).
Proof.
  unfold renderStrains. case_decide as H0.
  - destruct strains; [|done]. rewrite decide_False by (cbn; lia).
    split; [unfold INITIAL_RENDER_COUNT; cbn; lia|]. split; reflexivity.
  - rewrite !filter_app, links_links, controls_links.
    rewrite length_app, length_map, length_take.
    case_decide.
    + rewrite filter_cons_False, filter_nil by (cbn; intros []).
      rewrite filter_cons_True by done. rewrite filter_nil, app_nil_r.
      cbn [length app]. split; [unfold INITIAL_RENDER_COUNT; lia | done].
    + rewrite !filter_nil, app_nil_r. cbn [length app].
      split; [unfold INITIAL_RENDER_COUNT; lia | done].
Qed.

(** ** Fan-out *)

Lemma dispatched_app cs1 cs2 s s1 s2 :
  dispatched cs1 s s1 → dispatched cs2 s1 s2 → dispatched (cs1 ++ cs2) s s2.
Proof.
  induction 1 as [|c cs s s' Hc Hd IH]; intros H2; [done|].
  cbn [app]. apply dispatched_cons; [done|]. by apply IH.
Qed.

(** What a run of dispatches leaves as it was, and what it adds. *)
Lemma dispatched_fields cs s s' :
  dispatched cs s s' →
  remoteCalls s' = remoteCalls s ++ map url cs
  ∧ promises s' = promises s ++ map (λ c, {| p_chain := c; p_state := None |}) cs
  ∧ caches s' = caches s
  ∧ prefetchQueue s' = prefetchQueue s
  ∧ strainList s' = strainList s
  ∧ (∀ k p, pendingRequests s !! k = Some p → pendingRequests s' !! k = Some p)
  ∧ (∀ c, c ∈ cs → pendingRequests s !! requestKey c = None)
  ∧ NoDup (map requestKey cs).
Proof.
  induction 1 as [s|c cs s s' Hc Hd IH].
  - rewrite !app_nil_r. repeat split; try done.
    + intros c Hin. by apply elem_of_nil in Hin.
    + constructor.
  - destruct IH as (H1 & H2 & H3 & H4 & H5 & H6 & H7 & H8).
    unfold dispatch in *. fields.
    split; [by rewrite H1, <- app_assoc|].
    split; [by rewrite H2, <- app_assoc|].
    split; [done|]. split; [done|]. split; [done|].
    split; [|split].
    + intros k p Hk. apply H6. rewrite lookup_insert_ne; [done|].
      intros <-. congruence.
    + intros c' [->|Hin]%elem_of_cons; [done|].
      specialize (H7 c' Hin). by apply lookup_insert_None in H7 as [? _].
    + cbn [map]. constructor; [|done].
      intros (c' & Hk & Hin)%list_elem_of_fmap.
      specialize (H7 c' Hin). apply lookup_insert_None in H7 as [_ Hne].
      congruence.
Qed.

Lemma fetchTerm_dispatched now id s :
  ∃ cs, dispatched cs s (fetchTerm now id s).2
        ∧ (cs = [] ∨ cs = [TermChain id])
        ∧ match (fetchTerm now id s).1 with
          | Immediate _ => True
          | Promised p =>
              pendingRequests (fetchTerm now id s).2 !! requestKey (TermChain id)
              = Some p
          end.
Proof.
  unfold fetchTerm. destruct (cached_fresh _ _ _).
  - exists []. split; [constructor|]. split; [by left | done].
  - destruct (pendingRequests s !! _) as [p|] eqn:Hp.
    + exists []. split; [constructor|]. split; [by left | done].
    + exists [TermChain id]. split; [|split; [by right|]].
      * apply dispatched_cons; [done | constructor].
      * unfold dispatch. fields. apply lookup_insert_eq.
Qed.

Lemma fetchTerm_map_dispatched clock i ids s :
  ∃ new, dispatched (map TermChain new) s (fetchTerm_map clock i ids s).2
         ∧ sublist new ids
         ∧ Forall2 (λ id r,
                      match r with
                      | Immediate _ => True
                      | Promised p =>
                          pendingRequests (fetchTerm_map clock i ids s).2
                            !! requestKey (TermChain id) = Some p
                      end) ids (fetchTerm_map clock i ids s).1.
Proof.
  revert i s. induction ids as [|id ids IH]; intros i s.
  - exists []. cbn. split; [constructor|]. split; [constructor|constructor].
  - cbn [fetchTerm_map].
    destruct (fetchTerm_dispatched (clock i) id s) as (cs & Hd & Hcs & Hr).
    destruct (fetchTerm (clock i) id s) as [r s1] eqn:E. cbn [fst snd] in *.
    destruct (IH (S i) s1) as (new & Hd' & Hsub & Hall).
    destruct (fetchTerm_map clock (S i) ids s1) as [rs s2] eqn:E'.
    cbn [fst snd] in *.
    destruct (dispatched_fields _ _ _ Hd') as (_ & _ & _ & _ & _ & Hkeep & _).
    destruct Hcs as [-> | ->].
    + exists new. split; [by apply (dispatched_app [] _ s s1 s2)|].
      split; [by apply sublist_cons|].
      constructor; [|done]. destruct r as [v|p]; [done|]. by apply Hkeep.
    + exists (id :: new). split; [by apply (dispatched_app [_] _ s s1 s2)|].
      split; [by apply sublist_skip|].
      constructor; [|done]. destruct r as [v|p]; [done|]. by apply Hkeep.
Qed.

(** X14: [ids.map(id => fetchTerm(id))], the fan-out of [init] over the
    roots and of the click handler over the children, hands back one result
    per id and issues only term requests, none twice, each for an id of the
    list, in list order; every promise handed back is registered under the
    key of its id when the fan-out ends.  The caches and the prefetch set
    are as before. *)
Theorem fetchTerm_map_requests_once (clock : nat → Z) (i : nat)
    (ids : list string) (s : state) :
  let res := fetchTerm_map clock i ids s in
  ∃ new,
    remoteCalls res.2 = remoteCalls s ++ map GetTerm new
    ∧ NoDup new ∧ sublist new ids
    ∧ (∀ id, id ∈ new → pendingRequests s !! requestKey (TermChain id) = None)
    ∧ Forall2 (λ id r,
                 match r with
                 | Immediate _ => True
                 | Promised p =>
                     pendingRequests res.2 !! requestKey (TermChain id) = Some p
                 end) ids res.1
    ∧ caches res.2 = caches s
    ∧ prefetchQueue res.2 = prefetchQueue s.
Proof.
  cbv zeta.
  destruct (fetchTerm_map_dispatched clock i ids s) as (new & Hd & Hsub & Hall).
  destruct (dispatched_fields _ _ _ Hd) as (H1 & _ & H3 & H4 & _ & _ & H7 & H8).
  exists new. split; [by rewrite H1, map_map|].
  split; [|split; [done|split; [|done]]].
  - rewrite map_map in H8. by apply NoDup_fmap_1 in H8.
  - intros id Hin. apply (H7 (TermChain id)). by apply list_elem_of_fmap_2.
Qed.

(** ** The prefetch mark *)

Lemma marking_net s s1 s' : net s' = net s1 → marking s s1 → marking s s'.
Proof.
  intros (Hp & _ & _ & Hq & _)%net_eq [H1 H2|c H1 H2 H3|p c r H0 H1 H2].
  - apply m_frame; by rewrite ?Hp, ?Hq.
  - apply (m_dispatch _ _ c); by rewrite ?Hp, ?Hq.
  - apply (m_settle _ _ p c r); [done | by rewrite Hp | by rewrite Hq].
Qed.

Lemma step_marking ev s : marking s (step ev s).
Proof.
  destruct ev as [now id|now id|hovered|now t|this|now p r|now p r|now p r|now];
    cbn [step].
  - destruct (fetchTerm_net now id s) as [H| ->].
    + apply net_eq in H as (H1 & _ & _ & H4 & _). apply m_frame; [done|].
      by rewrite H4.
    + by apply (m_dispatch _ _ (TermChain id)).
  - destruct (fetchChildren_net now id s) as [H| ->].
    + apply net_eq in H as (H1 & _ & _ & H4 & _). apply m_frame; [done|].
      by rewrite H4.
    + by apply (m_dispatch _ _ (ChildrenChain id)).
  - unfold mouseenter. destruct (_ && _); [|by apply m_frame].
    unfold prefetchStrains. fields. destruct (pendingRequests s !! _).
    + apply m_frame; [done|]. fields. set_solver.
    + apply (m_dispatch _ _ (PrefetchChain hovered)); [done|..].
      * unfold dispatch. fields. set_solver.
      * intros id [= <-]. unfold dispatch. fields. set_solver.
  - unfold showStrains. fields. destruct (cached_fresh _ _ _); [by apply m_frame|].
    destruct (pendingRequests s !! _).
    + eapply marking_net; [apply await_net|]. by apply m_frame.
    + eapply marking_net; [apply await_net|].
      by apply (m_dispatch _ _ (ShowChain (go_id t))).
  - case_decide; by apply m_frame.
  - unfold settle_term.
    destruct (promises s !! p) as [[[id|id|id|id] [st|]]|] eqn:E;
      try by apply m_frame.
    destruct (ok_json_or JNull r) as [e|d]; [|destruct (truthy d)];
      (eapply (m_settle _ _ p (TermChain id));
       [exact E | erewrite resolve_promises by exact E; reflexivity | by left]).
  - unfold settle_children.
    destruct (promises s !! p) as [[[id|id|id|id] [st|]]|] eqn:E;
      try by apply m_frame.
    destruct (ok_json_or [] r) as [e|d];
      (eapply (m_settle _ _ p (ChildrenChain id));
       [exact E | erewrite resolve_promises by exact E; reflexivity | by left]).
  - unfold settle_strains.
    destruct (promises s !! p) as [[[id|id|id|id] [st|]]|] eqn:E;
      try by apply m_frame.
    + eapply marking_net; [apply wake_net|].
      destruct (ok_json_or [] r) as [e|d];
        (eapply (m_settle _ _ p (PrefetchChain id));
         [exact E | erewrite resolve_promises by exact E; reflexivity
         | right; by exists id]).
    + destruct (ok_json_or [] r) as [e|d];
        (eapply marking_net; [apply wake_net|]);
        (eapply (m_settle _ _ p (ShowChain id));
         [exact E | erewrite resolve_promises by exact E; reflexivity | by left]).
  - by apply m_frame.
Qed.

Lemma marked_step ev s : registered s → marked s → marked (step ev s).
Proof.
  intros Hreg Hm. destruct (step_marking ev s) as [H1 H2|c H1 H2 H3|p c r H0 H1 H2];
    intros q id; unfold in_flight; rewrite H1.
  - intros Hq. apply H2. by eapply Hm.
  - intros Hq. destruct (decide (q < length (promises s))%nat).
    + rewrite lookup_app_l in Hq by done. apply H2. by eapply Hm.
    + rewrite lookup_app_r in Hq by lia.
      destruct (q - length (promises s))%nat; [|done].
      injection Hq as ->. by apply H3.
  - intros Hq. destruct (decide (p = q)) as [->|Hne].
    { rewrite list_lookup_insert_eq in Hq by (by eapply lookup_lt_Some).
      discriminate. }
    rewrite list_lookup_insert_ne in Hq by done.
    destruct H2 as [-> | (id' & -> & ->)]; [by eapply Hm|].
    apply elem_of_difference. split; [by eapply Hm|].
    intros ->%elem_of_singleton. apply Hne.
    pose proof (Hreg _ _ H0) as Hp. pose proof (Hreg _ _ Hq) as Hq'. congruence.
Qed.

Lemma marked_reachable s : reachable s → marked s.
Proof.
  intros [evs ->]. induction evs as [|ev evs IH] using rev_ind.
  - intros q i. unfold in_flight, init_state. cbn [promises run foldl].
    by rewrite lookup_nil.
  - rewrite run_snoc. apply marked_step; [|done].
    apply registered_reachable. by eexists.
Qed.

(** X16: in every reachable state a term whose speculative strains request
    is in flight is in the prefetch set, so a hover on it changes nothing:
    no second mark, no second request. *)
Theorem prefetch_in_flight_is_marked (s : state) (p : nat) (id : string) :
  reachable s → in_flight s p (PrefetchChain id) →
  id ∈ prefetchQueue s ∧ mouseenter id s = s.
Proof.
  intros Hs Hfl. pose proof (marked_reachable s Hs p id Hfl) as Hin.
  split; [done|]. unfold mouseenter.
  rewrite (bool_decide_false (id ∉ prefetchQueue s)) by auto.
  by rewrite andb_false_r.
Qed.

(** ** Two clicks, one request *)

Lemma wake_last_strains p d b w s :
  awaiting s = w ++ [(p, b)] →
  strainList (wake p (Fulfilled (VStrains d)) s) = renderStrains d.
Proof.
  intros Hw. unfold wake. rewrite Hw, foldl_app. cbn [foldl fst snd].
  by rewrite decide_True by done.
Qed.

Lemma wake_awaiting p r s :
  awaiting (wake p r s) = filter (λ w, w.1 ≠ p) (awaiting s).
Proof.
  unfold wake.
  change (filter (λ w, w.1 ≠ p) (awaiting s))
    with (awaiting (set_awaiting (filter (λ w, w.1 ≠ p)) s)).
  generalize (set_awaiting (filter (λ w, w.1 ≠ p)) s).
  induction (awaiting s) as [|w l IH]; intros s0; [done|].
  cbn [foldl]. rewrite IH. case_decide; [|done].
  unfold showStrains_resume, showStrains_catch.
  destruct r as [[]|]; try destruct (w.2); reflexivity.
Qed.

(** X17: two [showStrains] calls for one term with no fresh entry and no
    pending request issue one remote call: the second call waits for the
    promise of the first.  When a response comes both continue, the list
    shows the strains of the response, the entry is stored, the key leaves
    [pendingRequests] and no call on that promise stays suspended. *)
Theorem showStrains_twice_one_request (now now2 now' : Z) (t : term)
    (r : reply (list strain)) (d : list strain) (s : state) :
  pendingRequests s !! requestKey (ShowChain (go_id t)) = None →
  cached_fresh (strainsCache s) (go_id t) now = None →
  cached_fresh (strainsCache s) (go_id t) now2 = None →
  ok_json_or [] r = inr d →
  let p := length (promises s) in
  let s2 := showStrains now2 t (showStrains now t s) in
  let s3 := settle_strains now' p r s2 in
  remoteCalls s2 = remoteCalls s ++ [GetStrains (go_id t)]
  ∧ awaiting s2 = awaiting s ++ [(p, false); (p, true)]
  ∧ remoteCalls s3 = remoteCalls s ++ [GetStrains (go_id t)]
  ∧ strainList s3 = renderStrains d
  ∧ strainsCache s3 !! go_id t = Some {| data := d; timestamp := now' |}
  ∧ pendingRequests s3 !! requestKey (ShowChain (go_id t)) = None
  ∧ (∀ b, (p, b) ∉ awaiting s3).
Proof.
  intros Hp Hm1 Hm2 Hr. cbv zeta.
  assert (showStrains now t s
          = set_awaiting (λ l, l ++ [(length (promises s), false)])
              (dispatch (ShowChain (go_id t))
                 (set_strainList
                    (λ _, [Message "text-gray-500" "Loading strains..."])
                    (set_label (name t +:+ " (" +:+ go_id t +:+ ")") s))).2)
    as ->.
  { unfold showStrains. fields. rewrite Hm1, Hp. unfold dispatch, await. fields.
    rewrite lookup_app_r by lia. by rewrite Nat.sub_diag. }
  match goal with |- context [showStrains now2 t ?s0] => set (s1 := s0) end.
  assert (in_flight s1 (length (promises s)) (ShowChain (go_id t))) as Hfl.
  { subst s1. unfold in_flight, dispatch. fields.
    rewrite lookup_app_r by lia. by rewrite Nat.sub_diag. }
  assert (showStrains now2 t s1
          = set_awaiting (λ l, l ++ [(length (promises s), true)])
              (set_strainList
                 (λ _, [Message "text-gray-500" "Loading strains..."])
                 (set_label (name t +:+ " (" +:+ go_id t +:+ ")") s1))) as ->.
  { unfold showStrains. fields.
    assert (cached_fresh (strainsCache s1) (go_id t) now2 = None) as ->
        by exact Hm2.
    assert (pendingRequests s1 !! requestKey (ShowChain (go_id t))
            = Some (length (promises s))) as ->.
    { subst s1. unfold dispatch. fields. apply lookup_insert_eq. }
    unfold await. fields. by rewrite Hfl. }
  match goal with |- context [settle_strains now' _ r ?s0] => set (s2 := s0) end.
  assert (awaiting s2 = awaiting s ++ [(length (promises s), false);
                                        (length (promises s), true)]) as Haw.
  { subst s2 s1. unfold dispatch. fields. by rewrite <- app_assoc. }
  assert (in_flight s2 (length (promises s)) (ShowChain (go_id t))) as Hfl2
      by exact Hfl.
  split; [done|]. split; [exact Haw|].
  set (s3 := settle_strains now' (length (promises s)) r s2).
  assert (s3 = wake (length (promises s)) (Fulfilled (VStrains d))
                 (resolve (length (promises s)) (Fulfilled (VStrains d))
                    (set_pendingRequests
                       (delete (requestKey (ShowChain (go_id t))))
                       (set_strainsCache
                          <[go_id t := {| data := d; timestamp := now' |}]> s2))))
    as Hs3.
  { subst s3. unfold settle_strains. by rewrite Hfl2, Hr. }
  clearbody s3. subst s3.
  match goal with |- context [wake ?p ?r0 ?s0] =>
    pose proof (net_eq _ _ (wake_net p r0 s0))
      as (_ & Hq & Hc & _ & _ & _ & Hm);
    pose proof (wake_awaiting p r0 s0) as Hw;
    assert (strainList (wake p r0 s0) = renderStrains d) as Hl
  end.
  { apply (wake_last_strains _ d true
             (awaiting s ++ [(length (promises s), false)])).
    unfold resolve. fields. by rewrite Haw, <- app_assoc. }
  split; [by rewrite Hc|]. split; [exact Hl|].
  split; [rewrite Hm; unfold resolve; fields; apply lookup_insert_eq|].
  split; [rewrite Hq; unfold resolve; fields; apply lookup_delete_eq|].
  intros b. rewrite Hw. intros (Hne & _)%list_elem_of_filter. by apply Hne.
Qed.

(** ** The two variants of [fetchChildren] *)

(** X18: started from empty caches and given the same answer, an answer
    that is a response whose body, if ok, parses, [fetchChildren] of the
    simple variant and [fetchChildren] of the richer variant ask for the same
    URL and resolve to the same list, the parsed one or the empty list of a
    non-ok response, and both store it under the id. *)
Theorem variants_agree_on_children (id : string) (now now' : Z)
    (r : reply (list edge)) (d : list edge) :
  ok_json_or [] r = inr d →
  let rich := fetchChildren now id init_state in
  let rich' := settle_children now' 0 r rich.2 in
  let simple := Ddb.fetchChildren id r Ddb.init_state in
  rich.1 = Promised 0
  ∧ remoteCalls rich.2 = [GetChildren id]
  ∧ Ddb.fetchChildren_start id Ddb.init_state = Ddb.Suspended (GetChildren id)
  ∧ promises rich' !! 0%nat
    = Some {| p_chain := ChildrenChain id;
              p_state := Some (Fulfilled (VEdges d)) |}
  ∧ simple.1 = inr d
  ∧ childrenCache rich' !! id = Some {| data := d; timestamp := now' |}
  ∧ Ddb.childrenCache simple.2 !! id = Some d.
Proof.
  intros Hr. cbv zeta.
  assert (fetchChildren now id init_state
          = (Promised 0, (dispatch (ChildrenChain id) init_state).2)) as ->.
  { unfold fetchChildren, cached_fresh, init_state.
    cbn [childrenCache pendingRequests]. by rewrite !lookup_empty. }
  assert (Ddb.fetchChildren_start id Ddb.init_state
          = Ddb.Suspended (GetChildren id)) as Hst.
  { unfold Ddb.fetchChildren_start, Ddb.init_state. cbn [Ddb.childrenCache].
    by rewrite lookup_empty. }
  unfold Ddb.fetchChildren. rewrite Hst. cbn [fst snd].
  do 3 (split; [done|]).
  unfold settle_children, Ddb.fetchChildren_resume. rewrite Hr.
  unfold dispatch, init_state, Ddb.init_state. fields. cbn [app lookup list_lookup].
  unfold resolve; fields; cbn [Ddb.childrenCache fst snd].
  by rewrite ?lookup_insert_eq.
Qed.

(** ** Instances of the further properties *)

Lemma requestKey_urlString_witness :
  (requestKey (PrefetchChain "GO:0008150") = requestKey (ShowChain "GO:0008150")
   ∧ urlString (PrefetchChain "GO:0008150") = urlString (ShowChain "GO:0008150"))
  ∧ (urlString (ChildrenChain "mmrrc-strains")
     = urlString (PrefetchChain "children")
     ∧ (requestKey (ChildrenChain "mmrrc-strains")
        = requestKey (PrefetchChain "children")
        ∨ (url (ChildrenChain "mmrrc-strains") = GetChildren "mmrrc-strains"
           ∧ url (PrefetchChain "children") = GetStrains "children")
        ∨ (url (ChildrenChain "mmrrc-strains") = GetStrains "children"
           ∧ url (PrefetchChain "children") = GetChildren "mmrrc-strains"))).
Proof.
  assert (requestKey (PrefetchChain "GO:0008150")
          = requestKey (ShowChain "GO:0008150")) as Hk by reflexivity.
  assert (urlString (ChildrenChain "mmrrc-strains")
          = urlString (PrefetchChain "children")) as Hu by reflexivity.
  split.
  - split; [exact Hk|].
    exact (proj1 (proj2 (requestKey_urlString _ _)) Hk).
  - split; [exact Hu|].
    exact (proj1 (proj2 (proj2 (requestKey_urlString _ _))) Hu).
Defined.

Lemma pending_entries_witness :
  reachable busy
  ∧ pendingRequests busy !! "strains-GO:0008150" = Some 2%nat
  ∧ ∃ c st, promises busy !! 2%nat = Some {| p_chain := c; p_state := st |}
            ∧ requestKey c = "strains-GO:0008150".
Proof.
  assert (reachable busy) as H1 by (eexists; reflexivity).
  assert (pendingRequests busy !! "strains-GO:0008150" = Some 2%nat) as H2
      by (vm_compute; reflexivity).
  split; [exact H1|]. split; [exact H2|].
  destruct (pending_entries_classified busy _ _ H1 H2) as (c & st & Hp & Hk & _).
  exists c, st. split; [exact Hp | exact Hk].
Defined.

Lemma remote_calls_witness :
  reachable busy
  ∧ remoteCalls busy = map (λ pr, url (p_chain pr)) (promises busy).
Proof.
  assert (reachable busy) as H1 by (eexists; reflexivity).
  split; [exact H1 | exact (remote_calls_match_promises busy H1)].
Defined.

Lemma settled_is_final_witness :
  let s := settle_term 5 0 (Response true (inr (JStr "biological_process"))) busy in
  promises s !! 0%nat
  = Some {| p_chain := TermChain "GO:0008150";
            p_state := Some (Fulfilled (VTerm (JStr "biological_process"))) |}
  ∧ promises (step (SettleTerm 9 0 (NetworkError "Failed to fetch")) s) !! 0%nat
    = Some {| p_chain := TermChain "GO:0008150";
              p_state := Some (Fulfilled (VTerm (JStr "biological_process"))) |}.
Proof.
  cbv zeta.
  assert (promises (settle_term 5 0
                      (Response true (inr (JStr "biological_process"))) busy)
            !! 0%nat
          = Some {| p_chain := TermChain "GO:0008150";
                    p_state := Some (Fulfilled (VTerm (JStr "biological_process"))) |})
    as H by (vm_compute; reflexivity).
  split; [exact H|].
  exact (proj2 (settled_is_final (SettleTerm 9 0 (NetworkError "Failed to fetch"))
                  _ _ _ _ H) _ eq_refl).
Defined.

Lemma fetcher_promise_witness :
  reachable busy
  ∧ (fetchTerm 7 "GO:0008150" busy).1 = Promised 0
  ∧ in_flight (fetchTerm 7 "GO:0008150" busy).2 0 (TermChain "GO:0008150")
  ∧ (fetchChildren 7 "GO:0008150" busy).1 = Promised 1
  ∧ in_flight (fetchChildren 7 "GO:0008150" busy).2 1 (ChildrenChain "GO:0008150").
Proof.
  assert (reachable busy) as H1 by (eexists; reflexivity).
  assert ((fetchTerm 7 "GO:0008150" busy).1 = Promised 0) as H2
      by (vm_compute; reflexivity).
  assert ((fetchChildren 7 "GO:0008150" busy).1 = Promised 1) as H3
      by (vm_compute; reflexivity).
  split; [exact H1|]. split; [exact H2|].
  split; [exact (proj1 (fetcher_promise_is_live 7 "GO:0008150" busy 0 H1) H2)|].
  split; [exact H3|].
  exact (proj2 (fetcher_promise_is_live 7 "GO:0008150" busy 1 H1) H3).
Defined.

Lemma settle_then_fetch_witness :
  6 - 5 < CACHE_EXPIRY
  ∧ (in_flight busy 0 (TermChain "GO:0008150")
     ∧ let s1 := settle_term 5 0 (Response true (inr (JStr "biological_process")))
                   busy in
       fetchTerm 6 "GO:0008150" s1 = (Immediate (JStr "biological_process"), s1))
  ∧ (in_flight busy 1 (ChildrenChain "GO:0008150")
     ∧ let s1 := settle_children 5 1 (Response false (inl "Not Found")) busy in
       fetchChildren 6 "GO:0008150" s1 = (Immediate [], s1)).
Proof.
  assert (6 - 5 < CACHE_EXPIRY) as H by (vm_compute; reflexivity).
  split; [exact H|]. split.
  - assert (in_flight busy 0 (TermChain "GO:0008150")) as Hfl by reflexivity.
    split; [exact Hfl|].
    exact (proj1 (settle_then_fetch_hits 5 6 0 "GO:0008150" busy H)
             (Response true (inr (JStr "biological_process"))) _ Hfl
             eq_refl eq_refl).
  - assert (in_flight busy 1 (ChildrenChain "GO:0008150")) as Hfl by reflexivity.
    split; [exact Hfl|].
    exact (proj2 (settle_then_fetch_hits 5 6 1 "GO:0008150" busy H)
             (Response false (inl "Not Found")) _ Hfl eq_refl).
Defined.

Lemma retry_witness :
  (in_flight busy 0 (TermChain "GO:0008150")
   ∧ cached_fresh (termCache busy) "GO:0008150" 6 = None
   ∧ let s1 := settle_term 5 0 (Response false (inl "Not Found")) busy in
     (fetchTerm 6 "GO:0008150" s1).1 = Promised 3
     ∧ remoteCalls (fetchTerm 6 "GO:0008150" s1).2
       = remoteCalls busy ++ [GetTerm "GO:0008150"])
  ∧ (in_flight busy 1 (ChildrenChain "GO:0008150")
     ∧ cached_fresh (childrenCache busy) "GO:0008150" 6 = None
     ∧ let s1 := settle_children 5 1 (NetworkError "Failed to fetch") busy in
       (fetchChildren 6 "GO:0008150" s1).1 = Promised 3
       ∧ remoteCalls (fetchChildren 6 "GO:0008150" s1).2
         = remoteCalls busy ++ [GetChildren "GO:0008150"]).
Proof.
  split.
  - assert (in_flight busy 0 (TermChain "GO:0008150")) as Hfl by reflexivity.
    assert (cached_fresh (termCache busy) "GO:0008150" 6 = None) as Hm
        by (vm_compute; reflexivity).
    split; [exact Hfl|]. split; [exact Hm|].
    destruct (proj1 (settle_without_entry_then_fetch_retries 5 6 0 "GO:0008150" busy)
                (Response false (inl "Not Found")) Hfl Hm eq_refl)
      as (H1 & _ & _ & H4).
    split; [exact H1 | exact H4].
  - assert (in_flight busy 1 (ChildrenChain "GO:0008150")) as Hfl by reflexivity.
    assert (cached_fresh (childrenCache busy) "GO:0008150" 6 = None) as Hm
        by (vm_compute; reflexivity).
    split; [exact Hfl|]. split; [exact Hm|].
    destruct (proj2 (settle_without_entry_then_fetch_retries 5 6 1 "GO:0008150" busy)
                (NetworkError "Failed to fetch") _ Hfl Hm eq_refl)
      as (H1 & _ & _ & H4).
    split; [exact H1 | exact H4].
Defined.


Lemma showStrains_on_prefetch_witness :
  in_flight hovering 0 (PrefetchChain (go_id biological_process))
  ∧ pendingRequests hovering !! requestKey (PrefetchChain (go_id biological_process))
    = Some 0%nat
  ∧ cached_fresh (strainsCache hovering) (go_id biological_process) 1 = None
  ∧ strainList
      (settle_strains 2 0 (Response true (inr [{| mmrrc_id := "7" |}]))
         (showStrains 1 biological_process hovering))
    = [Message "text-gray-500" "No strains linked to this term."].
Proof.
  assert (in_flight hovering 0 (PrefetchChain (go_id biological_process))) as H1
      by reflexivity.
  assert (pendingRequests hovering
            !! requestKey (PrefetchChain (go_id biological_process)) = Some 0%nat)
    as H2 by (vm_compute; reflexivity).
  assert (cached_fresh (strainsCache hovering) (go_id biological_process) 1 = None)
    as H3 by (vm_compute; reflexivity).
  split; [exact H1|]. split; [exact H2|]. split; [exact H3|].
  exact (proj1 (proj2 (showStrains_on_prefetch_shows_none 1 2 3 0
                         biological_process
                         (Response true (inr [{| mmrrc_id := "7" |}]))
                         hovering H1 H2 H3))).
Defined.

Lemma hover_then_click_witness :
  strainsCache init_state !! go_id biological_process = None
  ∧ (go_id biological_process ∉ prefetchQueue init_state)
  ∧ 6 - 5 < CACHE_EXPIRY
  ∧ strainList
      (showStrains 6 biological_process
         (settle_strains 5 0 (Response true (inr [{| mmrrc_id := "7" |}]))
            (mouseenter (go_id biological_process) init_state)))
    = renderStrains [{| mmrrc_id := "7" |}].
Proof.
  assert (strainsCache init_state !! go_id biological_process = None) as H1
      by reflexivity.
  assert (go_id biological_process ∉ prefetchQueue init_state) as H2
      by (apply not_elem_of_empty).
  assert (pendingRequests init_state
            !! requestKey (PrefetchChain (go_id biological_process)) = None)
    as H3 by reflexivity.
  assert (6 - 5 < CACHE_EXPIRY) as H4 by (vm_compute; reflexivity).
  split; [exact H1|]. split; [exact H2|]. split; [exact H4|].
  destruct (hover_then_click_is_instant 5 6 biological_process
              (Response true (inr [{| mmrrc_id := "7" |}])) _ init_state
              H1 H2 H3 eq_refl H4) as (_ & _ & _ & H & _).
  exact H.
Defined.

Lemma renderers_agree_witness :
  ((length (strains_upto 50) ≤ INITIAL_RENDER_COUNT)%nat
   ∧ renderStrains (strains_upto 50) = DdbPage.renderStrains (strains_upto 50))
  ∧ ((INITIAL_RENDER_COUNT < length (strains_upto 150))%nat
     ∧ loadMore_onclick (loadMoreLi (strains_upto 150))
                        (renderStrains (strains_upto 150))
       = DdbPage.renderStrains (strains_upto 150)).
Proof.
  split.
  - assert (length (strains_upto 50) ≤ INITIAL_RENDER_COUNT)%nat as H
        by (vm_compute; lia).
    split; [exact H | exact (proj1 (renderers_agree _) H)].
  - assert (INITIAL_RENDER_COUNT < length (strains_upto 150))%nat as H
        by (vm_compute; lia).
    split; [exact H | exact (proj2 (renderers_agree _) H)].
Defined.

Lemma ddb_cache_witness :
  Ddb.childrenCache Ddb.init_state !! "GO:9999999" = None
  ∧ let s1 := (Ddb.fetchChildren "GO:9999999" (Response false (inl "Not Found"))
                 Ddb.init_state).2 in
    Ddb.fetchChildren "GO:9999999"
      (Response true (inr [{| child_go_id := "GO:0000003" |}])) s1
    = (inr [], s1).
Proof.
  assert (Ddb.childrenCache Ddb.init_state !! "GO:9999999" = None) as H
      by reflexivity.
  split; [exact H|].
  pose proof (ddb_cache_is_permanent "GO:9999999" biological_process
                Ddb.init_state DdbPage.init_page) as (_ & Hc & _).
  exact (proj2 (Hc (Response false (inl "Not Found")) []
                  (Response true (inr [{| child_go_id := "GO:0000003" |}]))
                  H eq_refl)).
Defined.

Lemma prefetch_marked_witness :
  reachable busy ∧ in_flight busy 2 (PrefetchChain "GO:0008150")
  ∧ "GO:0008150" ∈ prefetchQueue busy ∧ mouseenter "GO:0008150" busy = busy.
Proof.
  assert (reachable busy) as H1 by (eexists; reflexivity).
  assert (in_flight busy 2 (PrefetchChain "GO:0008150")) as H2 by reflexivity.
  split; [exact H1|]. split; [exact H2|].
  exact (prefetch_in_flight_is_marked busy 2 "GO:0008150" H1 H2).
Defined.

Lemma showStrains_twice_witness :
  pendingRequests init_state !! requestKey (ShowChain (go_id biological_process))
  = None
  ∧ cached_fresh (strainsCache init_state) (go_id biological_process) 0 = None
  ∧ let s2 := showStrains 1 biological_process
                (showStrains 0 biological_process init_state) in
    remoteCalls s2 = [GetStrains "GO:0008150"]
    ∧ strainList (settle_strains 2 0 (Response true (inr [{| mmrrc_id := "7" |}])) s2)
      = renderStrains [{| mmrrc_id := "7" |}].
Proof.
  assert (pendingRequests init_state
            !! requestKey (ShowChain (go_id biological_process)) = None)
    as H1 by reflexivity.
  assert (∀ now, cached_fresh (strainsCache init_state)
                   (go_id biological_process) now = None)
    as H2 by (intros now; reflexivity).
  split; [exact H1|]. split; [exact (H2 0)|].
  destruct (showStrains_twice_one_request 0 1 2 biological_process
              (Response true (inr [{| mmrrc_id := "7" |}])) _ init_state
              H1 (H2 0) (H2 1) eq_refl) as (Ha & _ & _ & Hb & _).
  split; [exact Ha | exact Hb].
Defined.

Lemma variants_agree_on_children_witness :
  ok_json_or [] (Response false (inl "Not Found" : error + list edge)) = inr []
  ∧ (Ddb.fetchChildren "GO:9999999" (Response false (inl "Not Found"))
       Ddb.init_state).1 = inr []
  ∧ promises (settle_children 5 0 (Response false (inl "Not Found"))
                (fetchChildren 0 "GO:9999999" init_state).2) !! 0%nat
    = Some {| p_chain := ChildrenChain "GO:9999999";
              p_state := Some (Fulfilled (VEdges [])) |}.
Proof.
  assert (ok_json_or [] (Response false (inl "Not Found" : error + list edge))
          = inr []) as H by reflexivity.
  split; [exact H|].
  destruct (variants_agree_on_children "GO:9999999" 0 5 _ _ H)
    as (_ & _ & _ & Hr & Hs & _).
  split; [exact Hs | exact Hr].
Defined.
